(** * WhatsApp agent webhook handlers

    A shallow embedding of the two webhook handlers of the repository:

    - the context-tracking handler (form-encoded payload, zod schema,
      in-memory [contextStore], [generateAIResponse]), and
    - the JSON handler of [src/app/api/whatsapp/route.ts].

    Both handlers are asynchronous functions whose [await]s are sequential, so
    each is embedded as a computation in a state-and-exception monad.  The
    state carries what the handler can change: the context store and the
    chronological trace of calls made to the two SDK clients.  The SDK clients
    themselves are parameters ([Services]).  Logging ([console.log],
    [console.error]) changes neither the response, the store nor the calls,
    and is left out. *)

From Stdlib Require Import QArith.
From stdpp Require Import gmap strings list fin_maps.

Open Scope string_scope.
Open Scope Z_scope.

(** ** JavaScript-level plumbing shared by both handlers *)

(** The result of awaiting a promise returned by the runtime or by an SDK
    client.  The rejections of [req.formData()], [request.json()] and of the
    OpenAI and Twilio clients are [Error] objects (TypeError, SyntaxError,
    APIError, RestException); only the [message] of such an object is ever
    read by the handlers. *)
Inductive Settled (A : Type) : Type :=
| Fulfilled (value : A)
| Rejected (message : string).
Arguments Fulfilled {A} value.
Arguments Rejected {A} message.

(** Completion of a handler fragment: a value, or a thrown JavaScript value
    of type [E]. *)
Inductive Outcome (E A : Type) : Type :=
| Normal (value : A)
| Thrown (error : E).
Arguments Normal {E A} value.
Arguments Thrown {E A} error.

(** Computations over a state [S] that may throw an [E].  A throw keeps the
    mutations made before it, as in JavaScript. *)
Definition M (S E A : Type) : Type := S -> Outcome E A * S.

Definition ret {S E A} (a : A) : M S E A := fun s => (Normal a, s).

Definition bind {S E A B} (m : M S E A) (k : A -> M S E B) : M S E B :=
  fun s =>
    match m s with
    | (Normal a, s') => k a s'
    | (Thrown e, s') => (Thrown e, s')
    end.

Definition throw {S E A} (e : E) : M S E A := fun s => (Thrown e, s).

(** [try { body } catch (error) { handler }] *)
Definition try_catch {S E A} (body : M S E A) (handler : E -> M S E A) : M S E A :=
  fun s =>
    match body s with
    | (Normal a, s') => (Normal a, s')
    | (Thrown e, s') => handler e s'
    end.

Declare Scope js_scope.
Delimit Scope js_scope with js.
Notation "x <- m ;; k" := (bind m (fun x => k))
  (at level 100, m at next level, right associativity) : js_scope.
Notation "m ;;; k" := (bind m (fun _ => k))
  (at level 100, right associativity) : js_scope.

(** [a || b] on an optional string: [undefined], [null] and the empty string
    are falsy. *)
Definition or_default (o : option string) (d : string) : string :=
  match o with
  | Some s => if String.eqb s "" then d else s
  | None => d
  end.

(** [arr.slice(-n)]: the last [n] elements, or the whole array when it is
    shorter. *)
Definition slice_last {A} (n : nat) (arr : list A) : list A :=
  drop (length arr - n)%nat arr.

(** [`whatsapp:${process.env.TWILIO_PHONE_NUMBER}`]: an unset variable is
    interpolated as the text [undefined]. *)
Definition whatsapp_sender (TWILIO_PHONE_NUMBER : option string) : string :=
  "whatsapp:" ++ default "undefined" TWILIO_PHONE_NUMBER.

(** JavaScript values as far as the JSON handler inspects them.  A JSON
    number is kept as the rational it denotes: the handler only tests it for
    truthiness, and a number is falsy when it is zero. *)
#[local] Unset Elimination Schemes.
Inductive JsValue : Type :=
| JsUndefined
| JsNull
| JsBoolean (b : bool)
| JsNumber (q : Q)
| JsString (s : string)
| JsArray (items : list JsValue)
| JsObject (props : list (string * JsValue)).
#[local] Set Elimination Schemes.

Definition truthy (v : JsValue) : bool :=
  match v with
  | JsUndefined | JsNull => false
  | JsBoolean b => b
  | JsNumber q => negb (Qnum q =? 0)
  | JsString s => negb (String.eqb s "")
  | JsArray _ | JsObject _ => true
  end.

(** Own property of a parsed JSON object; [JSON.parse] keeps the last of
    duplicated members. *)
Definition get_prop (key : string) (props : list (string * JsValue)) : JsValue :=
  foldl (fun acc kv => if String.eqb (fst kv) key then snd kv else acc) JsUndefined props.

(** ** The SDK clients *)

Inductive Role : Type := system | user | assistant.

#[global] Instance Role_eq_dec : EqDecision Role.
Proof. solve_decision. Defined.

Module OpenAI.
Record ChatCompletionMessageParam : Type :=
    { role : Role; content : JsValue }.

Record ChatCompletionCreateParams : Type :=
    { model : string;
      messages : list ChatCompletionMessageParam;
      max_tokens : Z;
      temperature : option Q }.

Record ChatCompletionMessage : Type := { message_content : option string }.
Record Choice : Type := { message : option ChatCompletionMessage }.
Record ChatCompletion : Type := { choices : list Choice }.

(** [completion.choices[0]?.message?.content] *)
Definition first_content (completion : ChatCompletion) : option string :=
    match choices completion with
    | [] => None
    | choice :: _ =>
        match message choice with
        | Some m => message_content m
        | None => None
        end
    end.
End OpenAI.

Module Twilio.
Record MessageListInstanceCreateOptions : Type :=
    { from : string; body : string; to : string }.
End Twilio.

(** One entry of the trace of outbound calls. *)
Inductive ProviderCall : Type :=
| CompletionCall (params : OpenAI.ChatCompletionCreateParams)
| MessagingCall (params : Twilio.MessageListInstanceCreateOptions).

(** The environment of a handler: the configured sender number and the two
    clients.  A client's answer may depend on the calls made so far and on
    the request it is given. *)
Record Services : Type :=
  { TWILIO_PHONE_NUMBER : option string;
    openai_chat_completions_create :
      list ProviderCall -> OpenAI.ChatCompletionCreateParams -> Settled OpenAI.ChatCompletion;
    twilioClient_messages_create :
      list ProviderCall -> Twilio.MessageListInstanceCreateOptions -> Settled unit }.

(** [NextResponse.json(body, { status })] *)
Inductive ZodIssue : Type :=
| invalid_type (path : string)
| too_small (path : string) (message : string)
| invalid_string (path : string) (validation : string).

Inductive JsonField : Type :=
| JsonBool (b : bool)
| JsonString (s : string)
| JsonIssues (issues : list ZodIssue).

Record NextResponse : Type :=
  { status : Z; json : list (string * JsonField) }.

Definition NextResponse_json (body : list (string * JsonField)) (init : option Z) : NextResponse :=
  {| status := default 200 init; json := body |}.

(** ** The context-tracking handler (form-encoded payload) *)

Module ContextTracking.

Record Message : Type := { role : Role; content : string }.

(** [interface ConversationContext]; [createdAt] is a [Date], kept as its
    time value. *)
Record ConversationContext : Type :=
  { id : string; messages : list Message; createdAt : Z }.

(** An entry of a [FormData]: a string, or an uploaded file. *)
Inductive FormDataEntryValue : Type :=
| FormString (s : string)
| FormFile (name : string).

(** The request, as far as the handler reads it: what [await req.formData()]
    settles to. *)
Record NextRequest : Type :=
  { formData : Settled (list (string * FormDataEntryValue)) }.

(** [Object.fromEntries(formData.entries())]: a later entry with the same
    name overwrites an earlier one. *)
Definition fromEntries (entries : list (string * FormDataEntryValue))
  : gmap string FormDataEntryValue :=
  foldl (fun obj kv => <[kv.1 := kv.2]> obj) ∅ entries.

(** Values the handler's [catch] may receive.  [ZodError] extends [Error];
    [NonError] stands for a thrown value that is not an [Error] object:
    nothing called by the handler throws such a value, but the [catch] block
    tests for it. *)
Inductive JsThrown : Type :=
| ZodError (errors : list ZodIssue)
| JsError (message : string)
| NonError.

Definition instanceof_Error (error : JsThrown) : bool :=
  match error with ZodError _ | JsError _ => true | NonError => false end.

(** [WhatsAppMessageSchema]:
    [Body: z.string().min(1, 'Message cannot be empty')],
    [From: z.string().startsWith('whatsapp:')]. *)
Record WhatsAppMessage : Type := { Body : string; From : string }.

Definition parse_Body (v : option FormDataEntryValue) : list ZodIssue + string :=
  match v with
  | Some (FormString s) =>
      if (String.length s <? 1)%nat
      then inl [too_small "Body" "Message cannot be empty"]
      else inr s
  | _ => inl [invalid_type "Body"]
  end.

Definition parse_From (v : option FormDataEntryValue) : list ZodIssue + string :=
  match v with
  | Some (FormString s) =>
      if String.prefix "whatsapp:" s
      then inr s
      else inl [invalid_string "From" "startsWith"]
  | _ => inl [invalid_type "From"]
  end.

(** [WhatsAppMessageSchema.parse({ Body, From })]: every field is checked and
    the issues of all fields are thrown together. *)
Definition WhatsAppMessageSchema_parse (Body From : option FormDataEntryValue)
  : Outcome JsThrown WhatsAppMessage :=
  match parse_Body Body, parse_From From with
  | inr b, inr f => Normal {| Body := b; From := f |}
  | inl ib, inl i_f => Thrown (ZodError (ib ++ i_f))
  | inl ib, inr _ => Thrown (ZodError ib)
  | inr _, inl i_f => Thrown (ZodError i_f)
  end.

(** What a request cycle can change: the module-level [contextStore] and the
    calls made so far, oldest first. *)
Record World : Type :=
  { contextStore : gmap string ConversationContext;
    calls : list ProviderCall }.

Definition Task : Type -> Type := M World JsThrown.

(** The local variable [context] holds a reference.  When the object came out
    of [contextStore.get], the [Map] holds the same object under
    [conversationId] and a mutation through [context] is a mutation of the
    stored context ([stored = true]); the object literal of the [||] branch is
    known to the handler alone until [contextStore.set]. *)
Record ContextRef : Type :=
  { object : ConversationContext; stored : bool }.

Definition system_message : Message :=
  {| role := system;
     content := "You are a helpful WhatsApp assistant. Provide concise and helpful responses." |}.

Definition fallback_number : string := "whatsapp:+1234567890".
Definition apology_text : string := "Sorry, I encountered an error processing your request.".
Definition no_content_reply : string := "I could not generate a response.".
Definition failure_reply : string := "Sorry, I am unable to generate a response right now.".

Section Handler.

Variable sv : Services.
(** The value of [new Date()] during this request. *)
Variable now : Z.

Definition log_call (c : ProviderCall) (w : World) : World :=
  {| contextStore := contextStore w; calls := calls w ++ [c] |}.

Definition settle {A} (r : Settled A) (w : World) : Outcome JsThrown A * World :=
  match r with
  | Fulfilled a => (Normal a, w)
  | Rejected msg => (Thrown (JsError msg), w)
  end.

(** [await req.formData()] *)
Definition req_formData (req : NextRequest) : Task (list (string * FormDataEntryValue)) :=
  fun w => settle (formData req) w.

(** [await openai.chat.completions.create(params)] *)
Definition openai_create (params : OpenAI.ChatCompletionCreateParams)
  : Task OpenAI.ChatCompletion :=
  fun w =>
    settle (openai_chat_completions_create sv (calls w) params)
           (log_call (CompletionCall params) w).

(** [await twilioClient.messages.create(params)] *)
Definition twilio_create (params : Twilio.MessageListInstanceCreateOptions) : Task unit :=
  fun w =>
    settle (twilioClient_messages_create sv (calls w) params)
           (log_call (MessagingCall params) w).

(** [WhatsAppMessageSchema.parse(...)] inside the handler *)
Definition schema_parse (Body From : option FormDataEntryValue) : Task WhatsAppMessage :=
  fun w => (WhatsAppMessageSchema_parse Body From, w).

(** [contextStore.get(conversationId) || { id, messages: [system], createdAt }] *)
Definition new_context (conversationId : string) : ConversationContext :=
  {| id := conversationId; messages := [system_message]; createdAt := now |}.

Definition contextStore_get_or_new (conversationId : string) : Task ContextRef :=
  fun w =>
    match contextStore w !! conversationId with
    | Some c => (Normal {| object := c; stored := true |}, w)
    | None => (Normal {| object := new_context conversationId; stored := false |}, w)
    end.

(** [context.messages.push(m)], where [context] was looked up under
    [conversationId]. *)
Definition messages_push (conversationId : string) (context : ContextRef) (m : Message)
  : Task ContextRef :=
  fun w =>
    let c := {| id := id (object context);
                messages := messages (object context) ++ [m];
                createdAt := createdAt (object context) |} in
    (Normal {| object := c; stored := stored context |},
     if stored context
     then {| contextStore := <[conversationId := c]> (contextStore w); calls := calls w |}
     else w).

(** [contextStore.set(conversationId, context)] *)
Definition contextStore_set (conversationId : string) (context : ContextRef) : Task unit :=
  fun w =>
    (Normal tt,
     {| contextStore := <[conversationId := object context]> (contextStore w);
        calls := calls w |}).

Definition to_param (msg : Message) : OpenAI.ChatCompletionMessageParam :=
  {| OpenAI.role := role msg; OpenAI.content := JsString (content msg) |}.

(** [generateAIResponse]: whatever the completion call throws is caught
    here and replaced by a fixed reply. *)
Definition generateAIResponse (context : ConversationContext) : Task string :=
  try_catch
    (let recentMessages := slice_last 6 (messages context) in
     completion <- openai_create
       {| OpenAI.model := "gpt-3.5-turbo";
          OpenAI.messages := map to_param recentMessages;
          OpenAI.max_tokens := 150;
          OpenAI.temperature := Some (7 # 10)%Q |} ;;
     ret (or_default (OpenAI.first_content completion) no_content_reply))%js
    (fun error => ret failure_reply).

(** The [catch] block of [POST]. *)
Definition handle_error (error : JsThrown) : Task NextResponse :=
  match error with
  | ZodError errors =>
      ret (NextResponse_json
             [("error", JsonString "Invalid request"); ("details", JsonIssues errors)]
             (Some 400))
  | _ =>
      ((if instanceof_Error error
        then try_catch
               (twilio_create
                  {| Twilio.from := whatsapp_sender (TWILIO_PHONE_NUMBER sv);
                     Twilio.body := apology_text;
                     Twilio.to := fallback_number |})
               (fun twilioError => ret tt)
        else ret tt) ;;;
       ret (NextResponse_json [("error", JsonString "Internal server error")] (Some 500)))%js
  end.

Definition POST (req : NextRequest) : Task NextResponse :=
  try_catch
    (formData <- req_formData req ;;
     let body := fromEntries formData in
     validatedData <- schema_parse (body !! "Body") (body !! "From") ;;
     let conversationId := From validatedData in
     context <- contextStore_get_or_new conversationId ;;
     context <- messages_push conversationId context
                  {| role := user; content := Body validatedData |} ;;
     aiResponse <- generateAIResponse (object context) ;;
     context <- messages_push conversationId context
                  {| role := assistant; content := aiResponse |} ;;
     contextStore_set conversationId context ;;;
     twilio_create
       {| Twilio.from := whatsapp_sender (TWILIO_PHONE_NUMBER sv);
          Twilio.body := aiResponse;
          Twilio.to := conversationId |} ;;;
     ret (NextResponse_json [("success", JsonBool true)] (Some 200)))%js
    handle_error.

End Handler.

End ContextTracking.

(** ** The JSON handler, [src/app/api/whatsapp/route.ts] *)

Module JsonRoute.

(** What [await request.json()] settles to. *)
Record NextRequest : Type := { json_body : Settled JsValue }.

(** Values the handler's [catch (error: any)] may receive; every throw in the
    handler is an [Error] object, of which [error.message] is read. *)
Inductive JsThrown : Type :=
| JsError (message : string).

Definition error_message (error : JsThrown) : string :=
  match error with JsError message => message end.

(** This handler keeps no state between requests: its state is the trace of
    outbound calls. *)
Definition Task : Type -> Type := M (list ProviderCall) JsThrown.

Definition hardcoded_recipient : string := "whatsapp:+923020012190".
Definition no_content_reply : string := "I'm here to help!".

Section Handler.

Variable sv : Services.

Definition settle {A} (r : Settled A) (calls : list ProviderCall)
  : Outcome JsThrown A * list ProviderCall :=
  match r with
  | Fulfilled a => (Normal a, calls)
  | Rejected msg => (Thrown (JsError msg), calls)
  end.

(** [await request.json()] *)
Definition request_json (request : NextRequest) : Task JsValue :=
  fun calls => settle (json_body request) calls.

(** [const { Body, From } = body]: destructuring [null] (or [undefined])
    throws a [TypeError]; a primitive or an array has neither property. *)
Definition destructure (body : JsValue) : Task (JsValue * JsValue) :=
  match body with
  | JsUndefined | JsNull =>
      throw (JsError "Cannot destructure property 'Body' of 'body' as it is null.")
  | JsObject props => ret (get_prop "Body" props, get_prop "From" props)
  | _ => ret (JsUndefined, JsUndefined)
  end.

(** [await openai.chat.completions.create(params)] *)
Definition openai_create (params : OpenAI.ChatCompletionCreateParams)
  : Task OpenAI.ChatCompletion :=
  fun calls =>
    settle (openai_chat_completions_create sv calls params)
           (calls ++ [CompletionCall params]).

(** [await twilioClient.messages.create(params)] *)
Definition twilio_create (params : Twilio.MessageListInstanceCreateOptions) : Task unit :=
  fun calls =>
    settle (twilioClient_messages_create sv calls params)
           (calls ++ [MessagingCall params]).

Definition POST (request : NextRequest) : Task NextResponse :=
  try_catch
    (body <- request_json request ;;
     fields <- destructure body ;;
     let Body := fst fields in
     let From := snd fields in
     if negb (truthy Body) || negb (truthy From)
     then ret (NextResponse_json [("error", JsonString "Invalid request payload.")] (Some 400))
     else
       aiResponse <- openai_create
         {| OpenAI.model := "gpt-4";
            OpenAI.messages := [ {| OpenAI.role := user; OpenAI.content := Body |} ];
            OpenAI.max_tokens := 200;
            OpenAI.temperature := None |} ;;
       let replyText := or_default (OpenAI.first_content aiResponse) no_content_reply in
       twilio_create
         {| Twilio.from := whatsapp_sender (TWILIO_PHONE_NUMBER sv);
            Twilio.to := hardcoded_recipient;
            Twilio.body := replyText |} ;;;
       ret (NextResponse_json
              [("success", JsonBool true);
               ("message", JsonString "Message processed and reply sent.")]
              None))%js
    (fun error =>
       ret (NextResponse_json
              [("error", JsonString "Failed to process request");
               ("details", JsonString (error_message error))]
              (Some 500))).

End Handler.

End JsonRoute.

(** ** Vocabulary of the properties *)

Definition messaging_calls (cs : list ProviderCall)
  : list Twilio.MessageListInstanceCreateOptions :=
  omap (fun c => match c with MessagingCall p => Some p | CompletionCall _ => None end) cs.

Definition completion_calls (cs : list ProviderCall) : list OpenAI.ChatCompletionCreateParams :=
  omap (fun c => match c with CompletionCall p => Some p | MessagingCall _ => None end) cs.

(** The response body carries [success: true]. *)
Definition has_success_true (resp : NextResponse) : Prop :=
  ("success", JsonBool true) ∈ json resp.

Module Cycle.
Import ContextTracking.

(** The context store invariant: every stored message list starts with a
    [system] entry and holds no other [system] entry. *)
Definition system_first_and_only (ms : list Message) : Prop :=
  ∃ first rest,
    ms = first :: rest ∧ role first = system ∧ Forall (fun m => role m ≠ system) rest.

Definition store_invariant (store : gmap string ConversationContext) : Prop :=
  ∀ key context, store !! key = Some context → system_first_and_only (messages context).

(** The payload of a request, as the schema sees it. *)
Definition payload_Body (fd : list (string * FormDataEntryValue)) : option FormDataEntryValue :=
  fromEntries fd !! "Body".
Definition payload_From (fd : list (string * FormDataEntryValue)) : option FormDataEntryValue :=
  fromEntries fd !! "From".

(** [Body] is missing (or is not text), or is the empty string. *)
Definition Body_missing_or_empty (v : option FormDataEntryValue) : Prop :=
  match v with
  | Some (FormString s) => s = ""
  | _ => True
  end.

(** [From] is missing (or is not text), or does not start with [whatsapp:]. *)
Definition From_lacks_prefix (v : option FormDataEntryValue) : Prop :=
  match v with
  | Some (FormString s) => String.prefix "whatsapp:" s = false
  | _ => True
  end.

(** A request whose form data was read and passed the schema, giving [v]. *)
Definition validated (req : NextRequest) (v : WhatsAppMessage) : Prop :=
  ∃ fd, formData req = Fulfilled fd ∧
        WhatsAppMessageSchema_parse (payload_Body fd) (payload_From fd) = Normal v.

(** *** One request cycle in closed form

    The values below name what the handler computes on a validated request
    [v] started in world [w]; [POST_validated] proves that [POST] computes
    exactly these. *)
Section ClosedForm.

Variable sv : Services.
Variable now : Z.
Variable w : World.
Variable v : WhatsAppMessage.

Definition prior_context : ConversationContext :=
  default (new_context now (From v)) (contextStore w !! From v).

Definition user_message : Message := {| role := user; content := Body v |}.

Definition completion_params : OpenAI.ChatCompletionCreateParams :=
  {| OpenAI.model := "gpt-3.5-turbo";
     OpenAI.messages := map to_param (slice_last 6 (messages prior_context ++ [user_message]));
     OpenAI.max_tokens := 150;
     OpenAI.temperature := Some (7 # 10)%Q |}.

Definition reply : string :=
  match openai_chat_completions_create sv (calls w) completion_params with
  | Fulfilled completion => or_default (OpenAI.first_content completion) no_content_reply
  | Rejected _ => failure_reply
  end.

Definition assistant_message : Message := {| role := assistant; content := reply |}.

Definition updated_context : ConversationContext :=
  {| id := id prior_context;
     messages := (messages prior_context ++ [user_message]) ++ [assistant_message];
     createdAt := createdAt prior_context |}.

Definition after_store : World :=
  {| contextStore := <[From v := updated_context]> (contextStore w);
     calls := calls w ++ [CompletionCall completion_params] |}.

Definition primary_send : Twilio.MessageListInstanceCreateOptions :=
  {| Twilio.from := whatsapp_sender (TWILIO_PHONE_NUMBER sv);
     Twilio.body := reply;
     Twilio.to := From v |}.

Definition apology_send : Twilio.MessageListInstanceCreateOptions :=
  {| Twilio.from := whatsapp_sender (TWILIO_PHONE_NUMBER sv);
     Twilio.body := apology_text;
     Twilio.to := fallback_number |}.

Definition after_primary : World := log_call (MessagingCall primary_send) after_store.

Definition after_apology : World := log_call (MessagingCall apology_send) after_primary.

Definition success_response : NextResponse :=
  {| status := 200; json := [("success", JsonBool true)] |}.

Definition failure_response : NextResponse :=
  {| status := 500; json := [("error", JsonString "Internal server error")] |}.

(** The outcome of the two awaited calls of the cycle. *)
Definition completion_throws : Prop :=
  ∃ msg, openai_chat_completions_create sv (calls w) completion_params = Rejected msg.

Definition primary_send_throws : Prop :=
  ∃ msg, twilioClient_messages_create sv (calls after_store) primary_send = Rejected msg.

Definition primary_send_succeeds : Prop :=
  twilioClient_messages_create sv (calls after_store) primary_send = Fulfilled tt.

Definition cycle : Outcome JsThrown NextResponse * World :=
  match twilioClient_messages_create sv (calls after_store) primary_send with
  | Fulfilled _ => (Normal success_response, after_primary)
  | Rejected _ => (Normal failure_response, after_apology)
  end.

End ClosedForm.
End Cycle.

(** ** Stub services for concrete runs *)

Definition completion_of (text : string) : OpenAI.ChatCompletion :=
  {| OpenAI.choices :=
       [ {| OpenAI.message := Some {| OpenAI.message_content := Some text |} |} ] |}.

(** The completion client always settles to [completion]; the first send of
    the messaging client settles to [primary] and every later one to
    [later]. *)
Definition stub_services (completion : Settled OpenAI.ChatCompletion)
    (primary later : Settled unit) : Services :=
  {| TWILIO_PHONE_NUMBER := Some "+14155238886";
     openai_chat_completions_create := fun _ _ => completion;
     twilioClient_messages_create :=
       fun cs _ => match messaging_calls cs with [] => primary | _ => later end |}.

Definition hello_form : ContextTracking.NextRequest :=
  {| ContextTracking.formData :=
       Fulfilled [("Body", ContextTracking.FormString "Hello");
                  ("From", ContextTracking.FormString "whatsapp:+100")] |}.

Definition hello_message : ContextTracking.WhatsAppMessage :=
  {| ContextTracking.Body := "Hello"; ContextTracking.From := "whatsapp:+100" |}.

Definition hello_json : JsonRoute.NextRequest :=
  {| JsonRoute.json_body :=
       Fulfilled (JsObject [("Body", JsString "Hello"); ("From", JsString "whatsapp:+100")]) |}.

(** The completion request of the JSON handler for a given [Body]. *)
Definition json_completion_params (Body : JsValue) : OpenAI.ChatCompletionCreateParams :=
  {| OpenAI.model := "gpt-4";
     OpenAI.messages := [ {| OpenAI.role := user; OpenAI.content := Body |} ];
     OpenAI.max_tokens := 200;
     OpenAI.temperature := None |}.

Definition fallback_number_form : ContextTracking.NextRequest :=
  {| ContextTracking.formData :=
       Fulfilled [("Body", ContextTracking.FormString "Hello");
                  ("From", ContextTracking.FormString "whatsapp:+1234567890")] |}.

(** Both clients succeed on every call. *)
Definition services_ok : Services :=
  {| TWILIO_PHONE_NUMBER := Some "+14155238886";
     openai_chat_completions_create := fun _ _ => Fulfilled (completion_of "Hi there!");
     twilioClient_messages_create := fun _ _ => Fulfilled tt |}.

Definition services_send_down : Services :=
  stub_services (Fulfilled (completion_of "Hi there!"))
                (Rejected "send failed") (Rejected "send failed").

Definition services_first_send_down : Services :=
  stub_services (Fulfilled (completion_of "Hi there!")) (Rejected "send failed") (Fulfilled tt).

Definition services_completion_down : Services :=
  stub_services (Rejected "upstream unavailable") (Fulfilled tt) (Fulfilled tt).

Definition services_all_down : Services :=
  stub_services (Rejected "upstream unavailable")
                (Rejected "send failed") (Rejected "send failed").

Definition empty_world : ContextTracking.World :=
  {| ContextTracking.contextStore := ∅; ContextTracking.calls := [] |}.

(** ** Further vocabulary: issues, traces and runs of several requests *)


(** The handler run on a sequence of requests, each with the clock value of
    its arrival. *)
Definition run (sv : Services) (reqs : list (Z * ContextTracking.NextRequest))
    (w : ContextTracking.World) : ContextTracking.World :=
  foldl (fun w r => (ContextTracking.POST sv r.1 r.2 w).2) w reqs.

(** The two entries a cycle appends for the payload [v] and the reply [r]. *)
Definition exchange (v : ContextTracking.WhatsAppMessage) (r : string)
  : list ContextTracking.Message :=
  [ {| ContextTracking.role := user; ContextTracking.content := ContextTracking.Body v |};
    {| ContextTracking.role := assistant; ContextTracking.content := r |} ].

(** The calls a request added to the trace. *)
Definition new_calls (before after : list ProviderCall) : list ProviderCall :=
  drop (length before) after.

Open Scope list_scope.

(** ** The context-tracking handler, case by case *)

Section ContextTrackingFacts.
Import ContextTracking Cycle.

Variable sv : Services.
Variable now : Z.

(** On a validated request the handler computes the closed form. *)
Lemma POST_validated (req : NextRequest) (v : WhatsAppMessage) (w : World) :
  validated req v → POST sv now req w = cycle sv now w v.
Proof.
  intros (fd & Hfd & Hparse).
  unfold payload_Body, payload_From in Hparse.
  unfold POST, try_catch, bind, req_formData, schema_parse.
  rewrite Hfd. cbn [settle]. rewrite Hparse.
  unfold cycle, after_apology, after_primary, after_store, primary_send, apology_send,
    updated_context, assistant_message, reply, completion_params, user_message, prior_context.
  unfold contextStore_get_or_new.
  destruct (contextStore w !! From v) as [c|] eqn:Hlook; cbn [default from_option Datatypes.id];
    unfold messages_push, generateAIResponse, try_catch, bind, openai_create, contextStore_set,
      twilio_create, ret; cbn [object stored contextStore calls log_call messages id createdAt];
    destruct (openai_chat_completions_create sv (calls w) _) as [completion|msg];
    cbn [settle contextStore calls log_call object stored messages id createdAt];
    rewrite ?insert_insert_eq.
  all: match goal with |- context [settle ?r _] => destruct r as [[]|msg'] end;
    cbn [settle]; [reflexivity|].
  all: cbn [handle_error instanceof_Error]; unfold bind, try_catch, twilio_create, ret.
  all: match goal with |- context [settle ?r _] => destruct r end; reflexivity.
Qed.

(** The schema accepts exactly a non-empty text [Body] together with a text
    [From] that starts with [whatsapp:]. *)
Lemma parse_Normal (b f : option FormDataEntryValue) (v : WhatsAppMessage) :
  WhatsAppMessageSchema_parse b f = Normal v ↔
  b = Some (FormString (Body v)) ∧ Body v ≠ "" ∧
  f = Some (FormString (From v)) ∧ String.prefix "whatsapp:" (From v) = true.
Proof.
  unfold WhatsAppMessageSchema_parse, parse_Body, parse_From. split.
  - destruct b as [[sb|]|], f as [[sf|]|]; try destruct sb as [|a sb']; cbn;
      try destruct (String.prefix "whatsapp:" sf) eqn:Hp; try discriminate.
    intros [= <-]. cbn. by rewrite Hp.
  - destruct v as [vb vf]; cbn. intros (-> & Hne & -> & Hp).
    destruct vb as [|a vb']; [done|]. cbn. by rewrite Hp.
Qed.

Lemma parse_Thrown (b f : option FormDataEntryValue) :
  Body_missing_or_empty b ∨ From_lacks_prefix f ↔
  ∃ errors, WhatsAppMessageSchema_parse b f = Thrown (ZodError errors).
Proof.
  unfold WhatsAppMessageSchema_parse, parse_Body, parse_From, Body_missing_or_empty,
    From_lacks_prefix. split.
  - intros H.
    destruct b as [[sb|]|], f as [[sf|]|]; try destruct sb as [|a sb']; cbn;
      try destruct (String.prefix "whatsapp:" sf) eqn:Hp; eauto.
    destruct H; discriminate.
  - intros [errors H].
    destruct b as [[sb|]|], f as [[sf|]|]; try destruct sb as [|a sb']; cbn in *;
      try destruct (String.prefix "whatsapp:" sf) eqn:Hp; auto; discriminate.
Qed.

Lemma parse_total (b f : option FormDataEntryValue) :
  (∃ v, WhatsAppMessageSchema_parse b f = Normal v) ∨
  (∃ errors, WhatsAppMessageSchema_parse b f = Thrown (ZodError errors)).
Proof.
  unfold WhatsAppMessageSchema_parse.
  destruct (parse_Body b), (parse_From f); eauto.
Qed.

(** A payload rejected by the schema is answered 400 and nothing changes. *)
Lemma POST_invalid (fd : list (string * FormDataEntryValue)) (errors : list ZodIssue) (w : World) :
  WhatsAppMessageSchema_parse (payload_Body fd) (payload_From fd) = Thrown (ZodError errors) →
  POST sv now {| formData := Fulfilled fd |} w =
    (Normal {| status := 400;
               json := [("error", JsonString "Invalid request"); ("details", JsonIssues errors)] |},
     w).
Proof.
  unfold payload_Body, payload_From. intros H.
  unfold POST, try_catch, bind, req_formData, schema_parse. cbn [formData settle].
  by rewrite H.
Qed.

(** A body that cannot be read as form data is not a validation error: the
    [TypeError] takes the generic branch of the [catch]. *)
Lemma POST_unreadable (req : NextRequest) (msg : string) (w : World) :
  formData req = Rejected msg →
  POST sv now req w =
    (Normal (failure_response), log_call (MessagingCall (apology_send sv)) w).
Proof.
  intros H. unfold POST, try_catch, bind, req_formData. rewrite H.
  cbn [settle handle_error instanceof_Error]. unfold bind, try_catch, twilio_create, ret.
  by destruct (twilioClient_messages_create sv (calls w) _).
Qed.

(** The [catch] block on a thrown value that is not an [Error] object: no
    apology is attempted. *)
Lemma handle_error_NonError (w : World) :
  handle_error sv NonError w = (Normal failure_response, w).
Proof. reflexivity. Qed.

(** No exception leaves the handler, whatever the request and the clients do. *)
Lemma POST_never_throws (req : NextRequest) (w : World) :
  ∃ resp w', POST sv now req w = (Normal resp, w').
Proof.
  destruct (formData req) as [fd|msg] eqn:Hfd.
  - destruct (parse_total (payload_Body fd) (payload_From fd)) as [[v Hv]|[errors He]].
    + rewrite (POST_validated req v w) by (exists fd; done).
      unfold cycle. destruct (twilioClient_messages_create sv _ _); eauto.
    + destruct req as [r]; cbn in Hfd; subst r. rewrite (POST_invalid _ _ _ He). eauto.
  - rewrite (POST_unreadable _ _ _ Hfd). eauto.
Qed.

(** What a cycle leaves in the store: the requests that are not validated
    leave it as it was. *)
Lemma POST_store (req : NextRequest) (w : World) :
  (∃ v, validated req v ∧
        contextStore (POST sv now req w).2 =
          <[From v := updated_context sv now w v]> (contextStore w))
  ∨ ((∀ v, ¬ validated req v) ∧ contextStore (POST sv now req w).2 = contextStore w).
Proof.
  destruct (formData req) as [fd|msg] eqn:Hfd.
  - destruct (parse_total (payload_Body fd) (payload_From fd)) as [[v Hv]|[errors He]].
    + left. exists v. split; [by exists fd|].
      rewrite (POST_validated req v w) by (exists fd; done).
      unfold cycle. by destruct (twilioClient_messages_create sv _ _).
    + right. split.
      * intros v (fd' & Hfd' & Hv). congruence.
      * destruct req as [r]; cbn in Hfd; subst r. by rewrite (POST_invalid _ _ _ He).
  - right. split.
    + intros v (fd' & Hfd' & Hv). congruence.
    + by rewrite (POST_unreadable _ _ _ Hfd).
Qed.

End ContextTrackingFacts.

(** ** [slice(-n)] *)

Section SliceLast.
Context {A : Type}.
Implicit Types (arr : list A) (n : nat).

Lemma slice_last_suffix n arr : slice_last n arr `suffix_of` arr.
Proof. apply suffix_drop. Qed.

Lemma slice_last_length n arr : length (slice_last n arr) = (n `min` length arr)%nat.
Proof. unfold slice_last. rewrite length_drop. lia. Qed.

Lemma slice_last_short n arr : (length arr ≤ n)%nat → slice_last n arr = arr.
Proof.
  intros H. unfold slice_last. replace (length arr - n)%nat with 0%nat by lia. done.
Qed.

Lemma slice_last_last n arr : (0 < n)%nat → last (slice_last n arr) = last arr.
Proof.
  intros Hn. unfold slice_last. rewrite !last_lookup, length_drop, lookup_drop.
  destruct arr as [|x arr']; [done|]. cbn [length]. f_equal. lia.
Qed.

End SliceLast.

Example slice_last_seven : slice_last 6 [1; 2; 3; 4; 5; 6; 7] = [2; 3; 4; 5; 6; 7].
Proof. reflexivity. Qed.

Example slice_last_two : slice_last 6 [1; 2] = [1; 2].
Proof. reflexivity. Qed.

(** ** One request cycle of the context-tracking handler *)

Section ContextTrackingClaims.
Import ContextTracking Cycle.

Variable sv : Services.
Variable now : Z.

Lemma failed_send_cycle (req : NextRequest) (v : WhatsAppMessage) (w : World) :
  validated req v →
  primary_send_throws sv now w v →
  ∃ resp w',
    POST sv now req w = (Normal resp, w') ∧
    status resp = 500 ∧
    calls w' = calls w ++
      [ CompletionCall (completion_params now w v);
        MessagingCall (primary_send sv now w v);
        MessagingCall (apology_send sv) ].
Proof.
  intros Hv [msg Hsend].
  rewrite (POST_validated sv now req v w Hv). unfold cycle. rewrite Hsend.
  eexists _, _. split; [reflexivity|]. split; [reflexivity|].
  cbn. by rewrite <- !app_assoc.
Qed.

(** C2.  On a validated request whose primary send throws, the handler
    answers 500 and the messaging client is called exactly once more, with the
    apology; nothing is assumed of that second call, so the answer is the same
    when it throws as well, and in either case the handler completes normally
    instead of throwing. *)
Theorem C2_primary_send_failure (req : NextRequest) (v : WhatsAppMessage) (w : World) :
  validated req v →
  primary_send_throws sv now w v →
  ∃ resp w',
    POST sv now req w = (Normal resp, w') ∧
    status resp = 500 ∧
    calls w' = calls w ++
      [ CompletionCall (completion_params now w v);
        MessagingCall (primary_send sv now w v);
        MessagingCall {| Twilio.from := whatsapp_sender (TWILIO_PHONE_NUMBER sv);
                         Twilio.body := apology_text;
                         Twilio.to := fallback_number |} ] ∧
    messaging_calls (drop (length (calls w)) (calls w')) =
      [ primary_send sv now w v; apology_send sv ].
Proof.
  intros Hv [msg Hsend].
  rewrite (POST_validated sv now req v w Hv). unfold cycle. rewrite Hsend.
  eexists _, _. split; [reflexivity|]. split; [reflexivity|].
  assert (calls (after_apology sv now w v) = calls w ++
      [ CompletionCall (completion_params now w v);
        MessagingCall (primary_send sv now w v);
        MessagingCall (apology_send sv) ]) as Hcalls.
  { cbn. by rewrite <- !app_assoc. }
  split; [exact Hcalls|].
  rewrite Hcalls, drop_app_length. reflexivity.
Qed.

(** C8.  A 500 answer does not undo the store write: when the primary send of
    a validated request throws, the context stored under the sender's key is
    the earlier message list (the stored one, or the system message alone for
    a new key) followed by the user and assistant messages of this cycle. *)
Theorem C8_failed_send_keeps_store_write (req : NextRequest) (v : WhatsAppMessage) (w : World) :
  validated req v →
  primary_send_throws sv now w v →
  ∃ resp w' context,
    POST sv now req w = (Normal resp, w') ∧
    status resp = 500 ∧
    contextStore w' !! From v = Some context ∧
    messages context =
      match contextStore w !! From v with
      | Some earlier => messages earlier
      | None => [system_message]
      end ++ [ {| role := user; content := Body v |};
               {| role := assistant; content := reply sv now w v |} ] ∧
    MessagingCall {| Twilio.from := whatsapp_sender (TWILIO_PHONE_NUMBER sv);
                     Twilio.body := reply sv now w v;
                     Twilio.to := From v |} ∈ calls w'.
Proof.
  intros Hv [msg Hsend].
  rewrite (POST_validated sv now req v w Hv). unfold cycle. rewrite Hsend.
  eexists _, _, (updated_context sv now w v).
  split; [reflexivity|]. split; [reflexivity|]. split; [|split].
  - cbn. apply lookup_insert_eq.
  - cbn. unfold prior_context. rewrite <- app_assoc.
    by destruct (contextStore w !! From v).
  - cbn. rewrite !elem_of_app, !list_elem_of_singleton. left. right. reflexivity.
Qed.

(** C9, as amended.  The apology that follows a failed primary send is
    addressed to the literal number [whatsapp:+1234567890] whatever the
    sender of the request is; it is therefore addressed to the sender exactly
    when the sender is that number. *)
Theorem C9_apology_destination_is_fixed (req : NextRequest) (v : WhatsAppMessage) (w : World) :
  validated req v →
  primary_send_throws sv now w v →
  ∃ resp w' apology,
    POST sv now req w = (Normal resp, w') ∧
    calls w' = calls w ++
      [ CompletionCall (completion_params now w v);
        MessagingCall (primary_send sv now w v);
        MessagingCall apology ] ∧
    Twilio.body apology = "Sorry, I encountered an error processing your request."%string ∧
    Twilio.to apology = "whatsapp:+1234567890"%string ∧
    (Twilio.to apology = From v ↔ From v = "whatsapp:+1234567890"%string).
Proof.
  intros Hv Hsend.
  destruct (failed_send_cycle req v w Hv Hsend) as (resp & w' & HP & _ & Hcalls).
  exists resp, w', (apology_send sv).
  do 4 (split; [done|]). cbn. split; [by intros <-|by intros ->].
Qed.

(** C3, as amended.  In the context-tracking handler, when the completion
    call of a validated request throws and the send that follows succeeds,
    the handler answers 200 and its one messaging call delivers the fixed
    reply [failure_reply] to the sender. *)
Theorem C3_completion_failure_falls_back (req : NextRequest) (v : WhatsAppMessage) (w : World) :
  validated req v →
  completion_throws sv now w v →
  primary_send_succeeds sv now w v →
  ∃ resp w',
    POST sv now req w = (Normal resp, w') ∧
    status resp = 200 ∧
    calls w' = calls w ++
      [ CompletionCall (completion_params now w v);
        MessagingCall
          {| Twilio.from := whatsapp_sender (TWILIO_PHONE_NUMBER sv);
             Twilio.body := "Sorry, I am unable to generate a response right now."%string;
             Twilio.to := From v |} ] ∧
    length (messaging_calls (drop (length (calls w)) (calls w'))) = 1%nat.
Proof.
  intros Hv [msg Hc] Hsend.
  rewrite (POST_validated sv now req v w Hv). unfold cycle.
  unfold primary_send_succeeds in Hsend. rewrite Hsend.
  eexists _, _. split; [reflexivity|]. split; [reflexivity|].
  assert (reply sv now w v = failure_reply) as Hreply by (unfold reply; by rewrite Hc).
  assert (calls (after_primary sv now w v) = calls w ++
      [ CompletionCall (completion_params now w v);
        MessagingCall
          {| Twilio.from := whatsapp_sender (TWILIO_PHONE_NUMBER sv);
             Twilio.body := failure_reply;
             Twilio.to := From v |} ]) as Hcalls.
  { cbn. unfold primary_send. by rewrite Hreply, <- !app_assoc. }
  split; [exact Hcalls|].
  rewrite Hcalls, drop_app_length. reflexivity.
Qed.

(** C5.  The one completion request of a validated cycle carries the last
    six messages (all of them when there are fewer) of the context's message
    list as it stands once the user message of this request is appended, in
    the same order; its last message is that user message. *)
Theorem C5_completion_window (req : NextRequest) (v : WhatsAppMessage) (w : World) :
  validated req v →
  ∃ resp w' params later history,
    POST sv now req w = (Normal resp, w') ∧
    calls w' = calls w ++ CompletionCall params :: later ∧
    completion_calls later = [] ∧
    history =
      match contextStore w !! From v with
      | Some earlier => messages earlier
      | None => [system_message]
      end ++ [ {| role := user; content := Body v |} ] ∧
    OpenAI.messages params = map to_param (slice_last 6 history) ∧
    slice_last 6 history `suffix_of` history ∧
    (length (OpenAI.messages params) ≤ 6)%nat ∧
    last (OpenAI.messages params) =
      Some {| OpenAI.role := user; OpenAI.content := JsString (Body v) |} ∧
    ∃ context, contextStore w' !! From v = Some context ∧ history `prefix_of` messages context.
Proof.
  intros Hv.
  set (history := messages (prior_context now w v) ++ [user_message v]).
  rewrite (POST_validated sv now req v w Hv). unfold cycle.
  assert (history =
      match contextStore w !! From v with
      | Some earlier => messages earlier
      | None => [system_message]
      end ++ [ {| role := user; content := Body v |} ]) as Hhist.
  { unfold history, prior_context. by destruct (contextStore w !! From v). }
  assert (last (map to_param (slice_last 6 history)) =
            Some {| OpenAI.role := user; OpenAI.content := JsString (Body v) |}) as Hlast.
  { change (map to_param ?l) with (to_param <$> l).
    rewrite fmap_last, slice_last_last by lia. unfold history. by rewrite last_snoc. }
  assert ((length (map to_param (slice_last 6 history)) ≤ 6)%nat) as Hlen.
  { rewrite length_map, slice_last_length. lia. }
  assert (contextStore (after_store sv now w v) !! From v = Some (updated_context sv now w v) ∧
          history `prefix_of` messages (updated_context sv now w v)) as [Hst Hpre].
  { split; [apply lookup_insert_eq|]. cbn. by apply prefix_app_r. }
  destruct (twilioClient_messages_create sv _ _).
  - exists (success_response), (after_primary sv now w v), (completion_params now w v),
      [MessagingCall (primary_send sv now w v)], history.
    split; [done|]. split; [cbn; by rewrite <- app_assoc|].
    repeat split; try done; try apply slice_last_suffix. eauto.
  - exists (failure_response), (after_apology sv now w v), (completion_params now w v),
      [MessagingCall (primary_send sv now w v); MessagingCall (apology_send sv)], history.
    split; [done|]. split; [cbn; by rewrite <- !app_assoc|].
    repeat split; try done; try apply slice_last_suffix. eauto.
Qed.

(** C6.  A validated request from a sender with no stored context, answered
    200, leaves under that sender's key a context of exactly three messages:
    the system message, the user message holding [Body], and the assistant
    message holding the reply that was delivered to the sender. *)
Theorem C6_fresh_key_three_messages
    (req : NextRequest) (v : WhatsAppMessage) (w : World) (resp : NextResponse) (w' : World) :
  validated req v →
  contextStore w !! From v = None →
  POST sv now req w = (Normal resp, w') →
  status resp = 200 →
  ∃ delivered,
    contextStore w' !! From v =
      Some {| id := From v;
              messages := [ system_message;
                            {| role := user; content := Body v |};
                            {| role := assistant; content := delivered |} ];
              createdAt := now |} ∧
    role system_message = system ∧
    last (calls w') =
      Some (MessagingCall {| Twilio.from := whatsapp_sender (TWILIO_PHONE_NUMBER sv);
                             Twilio.body := delivered;
                             Twilio.to := From v |}).
Proof.
  intros Hv Hfresh HP Hstatus.
  rewrite (POST_validated sv now req v w Hv) in HP. unfold cycle in HP.
  destruct (twilioClient_messages_create sv _ _); injection HP as <- <-; [|discriminate].
  exists (reply sv now w v). split; [|split; [done|]].
  - cbn. rewrite lookup_insert_eq. unfold updated_context, prior_context.
    rewrite Hfresh. reflexivity.
  - cbn. apply last_snoc.
Qed.

(** C7.  A request cycle preserves the store invariant (a stored message
    list starts with a system entry and holds no other one): a context that
    was stored keeps its messages as a prefix and gains no system entry, and a
    context stored by this cycle is the new context, whose only message is the
    system message, followed by entries that are not system entries. *)
Theorem C7_system_entry_invariant (req : NextRequest) (w : World) :
  store_invariant (contextStore w) →
  store_invariant (contextStore (POST sv now req w).2) ∧
  (∀ key context, contextStore w !! key = Some context →
     ∃ context' appended,
       contextStore (POST sv now req w).2 !! key = Some context' ∧
       messages context' = messages context ++ appended ∧
       Forall (fun m => role m ≠ system) appended) ∧
  (∀ key context', contextStore w !! key = None →
     contextStore (POST sv now req w).2 !! key = Some context' →
     ∃ appended,
       messages context' = messages (new_context now key) ++ appended ∧
       Forall (fun m => role m ≠ system) appended) ∧
  (∀ key, messages (new_context now key) = [system_message] ∧ role system_message = system).
Proof.
  intros Hinv.
  assert (∀ v, Forall (fun m => role m ≠ system)
                 [user_message v; assistant_message sv now w v]) as Hnew.
  { intros v. repeat constructor; cbn; discriminate. }
  assert (∀ v, messages (updated_context sv now w v) =
               messages (prior_context now w v) ++
               [user_message v; assistant_message sv now w v]) as Hupd.
  { intros v. cbn. by rewrite <- app_assoc. }
  destruct (POST_store sv now req w) as [(v & Hv & ->)|[_ ->]].
  - split; [|split; [|split]].
    + intros key context. destruct (decide (From v = key)) as [<-|Hne].
      * rewrite lookup_insert_eq. intros [= <-]. rewrite Hupd. unfold prior_context.
        destruct (contextStore w !! From v) as [earlier|] eqn:Hlook; cbn.
        -- destruct (Hinv _ _ Hlook) as (first & rest & -> & Hfirst & Hrest).
           exists first, (rest ++ [user_message v; assistant_message sv now w v]).
           split; [done|]. split; [done|]. apply Forall_app. auto.
        -- exists system_message, [user_message v; assistant_message sv now w v]. auto.
      * rewrite lookup_insert_ne by done. apply Hinv.
    + intros key context Hlook. destruct (decide (From v = key)) as [<-|Hne].
      * exists (updated_context sv now w v), [user_message v; assistant_message sv now w v].
        rewrite lookup_insert_eq, Hupd. unfold prior_context. rewrite Hlook. auto.
      * exists context, []. rewrite lookup_insert_ne, app_nil_r by done. auto.
    + intros key context' Hnone. destruct (decide (From v = key)) as [<-|Hne].
      * rewrite lookup_insert_eq. intros [= <-].
        exists [user_message v; assistant_message sv now w v].
        rewrite Hupd. unfold prior_context. rewrite Hnone. auto.
      * rewrite lookup_insert_ne by done. congruence.
    + done.
  - split; [done|]. split; [|split].
    + intros key context Hlook. exists context, []. rewrite app_nil_r. auto.
    + intros key context' Hnone Hsome. congruence.
    + done.
Qed.

(** C10.  A request whose [From] field is the text [K] changes no stored
    context under another key, and leaves to a context already stored under
    [K] its [id] and [createdAt]; the earlier messages of that context remain
    the beginning of its message list. *)
Theorem C10_frame (req : NextRequest) (fd : list (string * FormDataEntryValue))
    (K : string) (w : World) :
  formData req = Fulfilled fd →
  payload_From fd = Some (FormString K) →
  (∀ key, key ≠ K →
     contextStore (POST sv now req w).2 !! key = contextStore w !! key) ∧
  (∀ context, contextStore w !! K = Some context →
     ∃ context',
       contextStore (POST sv now req w).2 !! K = Some context' ∧
       id context' = id context ∧
       createdAt context' = createdAt context ∧
       messages context `prefix_of` messages context').
Proof.
  intros Hfd HK.
  destruct (POST_store sv now req w) as [(v & Hv & ->)|[_ ->]].
  - assert (From v = K) as HF.
    { destruct Hv as (fd' & Hfd' & Hparse). rewrite Hfd in Hfd'. injection Hfd' as <-.
      apply parse_Normal in Hparse as (_ & _ & Hfrom & _). congruence. }
    split.
    + intros key Hne. apply lookup_insert_ne. congruence.
    + intros context Hlook. exists (updated_context sv now w v).
      rewrite <- HF in *. rewrite lookup_insert_eq. unfold updated_context, prior_context.
      rewrite Hlook. cbn. split; [done|]. split; [done|]. split; [done|].
      rewrite <- app_assoc. by apply prefix_app_r.
  - split; [done|]. intros context Hlook. exists context. auto.
Qed.

(** The context-tracking handler on the end-to-end scenario: with a completion
    of text [Hi there!] and a send that succeeds, the one messaging call goes
    to the sender of the request. *)
Lemma context_handler_replies_to_sender (w : World) :
  (∀ cs params,
     openai_chat_completions_create sv cs params = Fulfilled (completion_of "Hi there!")) →
  (∀ cs params, twilioClient_messages_create sv cs params = Fulfilled tt) →
  ∃ completion,
    POST sv now hello_form w =
      (Normal {| status := 200; json := [("success", JsonBool true)] |},
       {| contextStore := <["whatsapp:+100"%string := updated_context sv now w hello_message]>
                            (contextStore w);
          calls := calls w ++
            [ CompletionCall completion;
              MessagingCall {| Twilio.from := whatsapp_sender (TWILIO_PHONE_NUMBER sv);
                               Twilio.body := "Hi there!";
                               Twilio.to := "whatsapp:+100" |} ] |}).
Proof.
  intros Hai Hsend.
  assert (validated hello_form hello_message) as Hv by (eexists; split; reflexivity).
  rewrite (POST_validated sv now _ _ w Hv). unfold cycle. rewrite Hsend.
  exists (completion_params now w hello_message).
  unfold after_primary, after_store, primary_send, reply, log_call. rewrite Hai.
  cbn. by rewrite <- app_assoc.
Qed.

End ContextTrackingClaims.

(** ** The JSON handler *)

Section JsonRouteFacts.
Import JsonRoute.

Variable sv : Services.

(** An object payload whose [Body] or [From] is falsy is answered 400 before
    any client is called. *)
Lemma json_POST_invalid (props : list (string * JsValue)) (cs : list ProviderCall) :
  truthy (get_prop "Body" props) = false ∨ truthy (get_prop "From" props) = false →
  POST sv {| json_body := Fulfilled (JsObject props) |} cs =
    (Normal {| status := 400; json := [("error", JsonString "Invalid request payload.")] |}, cs).
Proof.
  intros H. unfold POST, try_catch, bind, request_json, destructure, ret. cbn.
  destruct H as [-> | ->]; [done|]. by rewrite orb_true_r.
Qed.

(** A failing completion call is not recovered by this handler: the blanket
    [catch] answers 500 and the messaging client is never called. *)
Lemma json_POST_completion_failure (props : list (string * JsValue)) (cs : list ProviderCall)
    (msg : string) :
  truthy (get_prop "Body" props) = true →
  truthy (get_prop "From" props) = true →
  openai_chat_completions_create sv cs (json_completion_params (get_prop "Body" props)) =
    Rejected msg →
  POST sv {| json_body := Fulfilled (JsObject props) |} cs =
    (Normal {| status := 500;
               json := [("error", JsonString "Failed to process request");
                        ("details", JsonString msg)] |},
     cs ++ [CompletionCall (json_completion_params (get_prop "Body" props))]).
Proof.
  intros HB HF Hai. unfold POST, try_catch, bind, request_json, destructure, ret. cbn.
  rewrite HB, HF. cbn. unfold openai_create.
  fold (json_completion_params (get_prop "Body" props)). by rewrite Hai.
Qed.

(** Nor is a failing send followed by an apology: the same [catch] answers
    500 after the one messaging call. *)
Lemma json_POST_send_failure (props : list (string * JsValue)) (cs : list ProviderCall)
    (completion : OpenAI.ChatCompletion) (msg : string) :
  truthy (get_prop "Body" props) = true →
  truthy (get_prop "From" props) = true →
  openai_chat_completions_create sv cs (json_completion_params (get_prop "Body" props)) =
    Fulfilled completion →
  (∀ cs' params, twilioClient_messages_create sv cs' params = Rejected msg) →
  ∃ send,
    POST sv {| json_body := Fulfilled (JsObject props) |} cs =
      (Normal {| status := 500;
                 json := [("error", JsonString "Failed to process request");
                          ("details", JsonString msg)] |},
       cs ++ [CompletionCall (json_completion_params (get_prop "Body" props));
              MessagingCall send]) ∧
    Twilio.to send = hardcoded_recipient.
Proof.
  intros HB HF Hai Hsend. unfold POST, try_catch, bind, request_json, destructure, ret. cbn.
  rewrite HB, HF. cbn. unfold openai_create.
  fold (json_completion_params (get_prop "Body" props)). rewrite Hai. cbn.
  unfold twilio_create. rewrite Hsend. cbn. eexists.
  split; [by rewrite <- app_assoc|reflexivity].
Qed.

(** No exception leaves the JSON handler either. *)
Lemma json_POST_never_throws (request : NextRequest) (cs : list ProviderCall) :
  ∃ resp cs', POST sv request cs = (Normal resp, cs').
Proof.
  unfold POST, try_catch. destruct (bind _ _ cs) as [[resp|e] cs']; eauto.
Qed.

End JsonRouteFacts.

(** C1.  The JSON handler on the end-to-end scenario: the payload comes from
    [whatsapp:+100], the completion is [Hi there!] and the send succeeds.  The
    handler answers 200 with [success: true] and makes one messaging call with
    body [Hi there!], but that call is addressed to the number written in the
    source, which is not the sender. *)
Theorem C1_json_handler_sends_to_hardcoded_number (sv : Services) (cs : list ProviderCall) :
  (∀ cs params,
     openai_chat_completions_create sv cs params = Fulfilled (completion_of "Hi there!")) →
  (∀ cs params, twilioClient_messages_create sv cs params = Fulfilled tt) →
  ∃ resp cs',
    JsonRoute.POST sv hello_json cs = (Normal resp, cs') ∧
    status resp = 200 ∧
    has_success_true resp ∧
    messaging_calls (drop (length cs) cs') =
      [ {| Twilio.from := whatsapp_sender (TWILIO_PHONE_NUMBER sv);
           Twilio.body := "Hi there!";
           Twilio.to := "whatsapp:+923020012190" |} ] ∧
    "whatsapp:+923020012190"%string ≠ "whatsapp:+100"%string.
Proof.
  intros Hai Hsend.
  unfold JsonRoute.POST, try_catch, bind, JsonRoute.request_json, JsonRoute.destructure, ret.
  cbn. unfold JsonRoute.openai_create. rewrite Hai. cbn.
  unfold JsonRoute.twilio_create. rewrite Hsend. cbn.
  eexists _, _. split; [reflexivity|]. split; [reflexivity|]. split; [|split].
  - unfold has_success_true. cbn. apply list_elem_of_here.
  - rewrite <- app_assoc, drop_app_length. reflexivity.
  - discriminate.
Qed.

(** C4.  A payload that fails validation is answered 400 and the world is
    left as it was, so that neither client is called: in the context-tracking
    handler when [Body] is missing or empty or [From] lacks the [whatsapp:]
    prefix, in the JSON handler when [Body] is missing or empty. *)
Theorem C4_invalid_payload_400_without_calls :
  (∀ (sv : Services) (now : Z) (fd : list (string * ContextTracking.FormDataEntryValue))
     (w : ContextTracking.World),
     Cycle.Body_missing_or_empty (Cycle.payload_Body fd) ∨
     Cycle.From_lacks_prefix (Cycle.payload_From fd) →
     ∃ resp,
       ContextTracking.POST sv now {| ContextTracking.formData := Fulfilled fd |} w =
         (Normal resp, w) ∧
       status resp = 400)
  ∧
  (∀ (sv : Services) (props : list (string * JsValue)) (cs : list ProviderCall),
     get_prop "Body" props = JsUndefined ∨ get_prop "Body" props = JsString "" →
     ∃ resp,
       JsonRoute.POST sv {| JsonRoute.json_body := Fulfilled (JsObject props) |} cs =
         (Normal resp, cs) ∧
       status resp = 400).
Proof.
  split.
  - intros sv now fd w H. apply parse_Thrown in H as [errors He].
    rewrite (POST_invalid sv now fd errors w He). eauto.
  - intros sv props cs H. rewrite json_POST_invalid; [eauto|].
    left. by destruct H as [-> | ->].
Qed.

(** ** Concrete runs *)

Lemma hello_form_validated : Cycle.validated hello_form hello_message.
Proof. eexists. split; reflexivity. Defined.

Lemma empty_store_invariant : Cycle.store_invariant ∅.
Proof. intros key context H. rewrite lookup_empty in H. discriminate. Defined.

(** The end-to-end scenario on the JSON handler. *)
Lemma C1_witness :
  ∃ resp cs',
    JsonRoute.POST services_ok hello_json [] = (Normal resp, cs') ∧
    status resp = 200 ∧
    has_success_true resp ∧
    messaging_calls (drop (length (@nil ProviderCall)) cs') =
      [ {| Twilio.from := whatsapp_sender (TWILIO_PHONE_NUMBER services_ok);
           Twilio.body := "Hi there!";
           Twilio.to := "whatsapp:+923020012190" |} ] ∧
    "whatsapp:+923020012190"%string ≠ "whatsapp:+100"%string.
Proof.
  apply (C1_json_handler_sends_to_hardcoded_number services_ok []).
  - intros cs params. reflexivity.
  - intros cs params. reflexivity.
Defined.

(** Both sends fail: 500, one apology attempted, nothing thrown. *)
Lemma C2_witness :
  ∃ resp w',
    ContextTracking.POST services_send_down 0 hello_form empty_world = (Normal resp, w') ∧
    status resp = 500 ∧
    length (messaging_calls (ContextTracking.calls w')) = 2%nat.
Proof.
  destruct (C2_primary_send_failure services_send_down 0 hello_form hello_message empty_world)
    as (resp & w' & HP & Hstatus & Hcalls & Hmsg).
  - exact hello_form_validated.
  - exists "send failed"%string. reflexivity.
  - exists resp, w'. split; [exact HP|]. split; [exact Hstatus|].
    rewrite Hcalls. reflexivity.
Defined.

(** C3 fails as stated.  In the JSON handler a completion call that throws is
    answered 500 and nothing is delivered; in the context-tracking handler the
    reply is replaced by the fixed text, but the answer is 500 when the send
    that follows throws as well. *)
Lemma C3_counterexample :
  JsonRoute.POST services_completion_down hello_json [] =
    (Normal {| status := 500;
               json := [("error", JsonString "Failed to process request");
                        ("details", JsonString "upstream unavailable")] |},
     [CompletionCall (json_completion_params (JsString "Hello"))])
  ∧ Cycle.validated hello_form hello_message
  ∧ (ContextTracking.POST services_all_down 0 hello_form empty_world).1 =
      Normal {| status := 500; json := [("error", JsonString "Internal server error")] |}.
Proof. split; [reflexivity|]. split; [exact hello_form_validated|reflexivity]. Qed.

Lemma C3_witness :
  ∃ resp w',
    ContextTracking.POST services_completion_down 0 hello_form empty_world = (Normal resp, w') ∧
    status resp = 200 ∧
    messaging_calls (ContextTracking.calls w') =
      [ {| Twilio.from := "whatsapp:+14155238886";
           Twilio.body := "Sorry, I am unable to generate a response right now.";
           Twilio.to := "whatsapp:+100" |} ].
Proof.
  destruct (C3_completion_failure_falls_back services_completion_down 0
              hello_form hello_message empty_world)
    as (resp & w' & HP & Hstatus & Hcalls & _).
  - exact hello_form_validated.
  - exists "upstream unavailable"%string. reflexivity.
  - reflexivity.
  - exists resp, w'. split; [exact HP|]. split; [exact Hstatus|].
    rewrite Hcalls. reflexivity.
Defined.

Lemma C4_witness :
  (∃ resp,
     ContextTracking.POST services_ok 0
       {| ContextTracking.formData :=
            Fulfilled [("Body", ContextTracking.FormString "");
                       ("From", ContextTracking.FormString "whatsapp:+100")] |}
       empty_world = (Normal resp, empty_world) ∧
     status resp = 400)
  ∧
  (∃ resp,
     ContextTracking.POST services_ok 0
       {| ContextTracking.formData :=
            Fulfilled [("Body", ContextTracking.FormString "Hello");
                       ("From", ContextTracking.FormString "+100")] |}
       empty_world = (Normal resp, empty_world) ∧
     status resp = 400)
  ∧
  (∃ resp,
     JsonRoute.POST services_ok
       {| JsonRoute.json_body := Fulfilled (JsObject [("From", JsString "whatsapp:+100")]) |}
       [] = (Normal resp, []) ∧
     status resp = 400).
Proof.
  split; [|split].
  - apply (proj1 C4_invalid_payload_400_without_calls). left. reflexivity.
  - apply (proj1 C4_invalid_payload_400_without_calls). right. reflexivity.
  - apply (proj2 C4_invalid_payload_400_without_calls). left. reflexivity.
Defined.

(** The world after one successful cycle of the end-to-end scenario. *)
Lemma C5_witness :
  ∃ resp w' params,
    ContextTracking.POST services_ok 0 hello_form empty_world = (Normal resp, w') ∧
    completion_calls (ContextTracking.calls w') = [params] ∧
    OpenAI.messages params =
      [ {| OpenAI.role := system;
           OpenAI.content := JsString (ContextTracking.content ContextTracking.system_message) |};
        {| OpenAI.role := user; OpenAI.content := JsString "Hello" |} ].
Proof.
  destruct (C5_completion_window services_ok 0 hello_form hello_message empty_world)
    as (resp & w' & params & later & history & HP & Hcalls & Hlater & Hhist & Hmsgs & _).
  - exact hello_form_validated.
  - exists resp, w', params. split; [exact HP|]. split.
    + rewrite Hcalls. unfold completion_calls in *. cbn. by rewrite Hlater.
    + rewrite Hmsgs, Hhist. reflexivity.
Defined.

Lemma C6_witness :
  ∃ delivered,
    ContextTracking.contextStore
      (ContextTracking.POST services_ok 0 hello_form empty_world).2 !! "whatsapp:+100"%string =
      Some {| ContextTracking.id := "whatsapp:+100";
              ContextTracking.messages :=
                [ ContextTracking.system_message;
                  {| ContextTracking.role := user; ContextTracking.content := "Hello" |};
                  {| ContextTracking.role := assistant; ContextTracking.content := delivered |} ];
              ContextTracking.createdAt := 0 |} ∧
    delivered = "Hi there!"%string.
Proof.
  destruct (C6_fresh_key_three_messages services_ok 0 hello_form hello_message empty_world
              Cycle.success_response
              (ContextTracking.POST services_ok 0 hello_form empty_world).2)
    as (delivered & Hstore & _ & Hlast).
  - exact hello_form_validated.
  - reflexivity.
  - reflexivity.
  - reflexivity.
  - exists delivered. split; [exact Hstore|].
    cbn in Hlast. by injection Hlast as <-.
Defined.

Lemma C7_witness :
  Cycle.store_invariant
    (ContextTracking.contextStore (ContextTracking.POST services_ok 0 hello_form empty_world).2).
Proof.
  apply (C7_system_entry_invariant services_ok 0 hello_form empty_world).
  exact empty_store_invariant.
Defined.

Lemma C8_witness :
  ∃ resp w' context,
    ContextTracking.POST services_send_down 0 hello_form empty_world = (Normal resp, w') ∧
    status resp = 500 ∧
    ContextTracking.contextStore w' !! "whatsapp:+100"%string = Some context ∧
    ContextTracking.messages context =
      [ ContextTracking.system_message;
        {| ContextTracking.role := user; ContextTracking.content := "Hello" |};
        {| ContextTracking.role := assistant; ContextTracking.content := "Hi there!" |} ].
Proof.
  destruct (C8_failed_send_keeps_store_write services_send_down 0
              hello_form hello_message empty_world)
    as (resp & w' & context & HP & Hstatus & Hstore & Hmsgs & _).
  - exact hello_form_validated.
  - exists "send failed"%string. reflexivity.
  - exists resp, w', context. split; [exact HP|]. split; [exact Hstatus|].
    split; [exact Hstore|]. rewrite Hmsgs. reflexivity.
Defined.

(** C9 fails as stated when the sender is the number written in the source:
    the apology then goes to the inbound sender. *)
Lemma C9_counterexample :
  Cycle.payload_From
    [("Body", ContextTracking.FormString "Hello");
     ("From", ContextTracking.FormString "whatsapp:+1234567890")] =
    Some (ContextTracking.FormString "whatsapp:+1234567890")
  ∧ (ContextTracking.POST services_first_send_down 0 fallback_number_form empty_world).1 =
      Normal {| status := 500; json := [("error", JsonString "Internal server error")] |}
  ∧ messaging_calls
      (ContextTracking.calls
         (ContextTracking.POST services_first_send_down 0 fallback_number_form empty_world).2) =
      [ {| Twilio.from := "whatsapp:+14155238886";
           Twilio.body := "Hi there!";
           Twilio.to := "whatsapp:+1234567890" |};
        {| Twilio.from := "whatsapp:+14155238886";
           Twilio.body := "Sorry, I encountered an error processing your request.";
           Twilio.to := "whatsapp:+1234567890" |} ].
Proof. split; [reflexivity|]. split; reflexivity. Qed.

Lemma C9_witness :
  ∃ resp w' apology,
    ContextTracking.POST services_first_send_down 0 hello_form empty_world = (Normal resp, w') ∧
    last (ContextTracking.calls w') = Some (MessagingCall apology) ∧
    Twilio.to apology = "whatsapp:+1234567890"%string ∧
    Twilio.to apology ≠ "whatsapp:+100"%string.
Proof.
  destruct (C9_apology_destination_is_fixed services_first_send_down 0
              hello_form hello_message empty_world)
    as (resp & w' & apology & HP & Hcalls & _ & Hto & Hiff).
  - exact hello_form_validated.
  - exists "send failed"%string. reflexivity.
  - exists resp, w', apology. split; [exact HP|]. split; [|split; [exact Hto|]].
    + rewrite Hcalls. reflexivity.
    + intros Heq. apply Hiff in Heq. discriminate Heq.
Defined.

(** A second request of the same sender, after a first successful cycle. *)
Lemma C10_witness :
  let w1 := (ContextTracking.POST services_ok 0 hello_form empty_world).2 in
  let w2 := (ContextTracking.POST services_ok 5 hello_form w1).2 in
  (∀ key, key ≠ "whatsapp:+100"%string →
     ContextTracking.contextStore w2 !! key = ContextTracking.contextStore w1 !! key) ∧
  ∃ context',
    ContextTracking.contextStore w2 !! "whatsapp:+100"%string = Some context' ∧
    ContextTracking.createdAt context' = 0.
Proof.
  intros w1 w2.
  destruct (C10_frame services_ok 5 hello_form
              [("Body", ContextTracking.FormString "Hello");
               ("From", ContextTracking.FormString "whatsapp:+100")]
              "whatsapp:+100" w1) as [Hother Hsame].
  - reflexivity.
  - reflexivity.
  - split; [exact Hother|].
    destruct (Hsame (Cycle.updated_context services_ok 0 empty_world hello_message))
      as (context' & Hlook & _ & Hcreated & _).
    + reflexivity.
    + exists context'. split; [exact Hlook|]. rewrite Hcreated. reflexivity.
Defined.

(** Four requests of one sender: the fourth completion request carries six of
    the eight messages the context holds at that point, the system message
    and the first user message being cut off. *)
Example fourth_cycle_window :
  let step w := (ContextTracking.POST services_ok 0 hello_form w).2 in
  let w4 := step (step (step (step empty_world))) in
  (OpenAI.messages <$> last (completion_calls (ContextTracking.calls w4))) =
    Some [ {| OpenAI.role := assistant; OpenAI.content := JsString "Hi there!" |};
           {| OpenAI.role := user; OpenAI.content := JsString "Hello" |};
           {| OpenAI.role := assistant; OpenAI.content := JsString "Hi there!" |};
           {| OpenAI.role := user; OpenAI.content := JsString "Hello" |};
           {| OpenAI.role := assistant; OpenAI.content := JsString "Hi there!" |};
           {| OpenAI.role := user; OpenAI.content := JsString "Hello" |} ]
  ∧ (length ∘ ContextTracking.messages <$>
       ContextTracking.contextStore w4 !! "whatsapp:+100"%string) = Some 9%nat.
Proof. split; vm_compute; reflexivity. Qed.

(** ** The schema and the form data *)

Section SchemaFacts.
Import ContextTracking Cycle.



(** X2.  [Object.fromEntries] keeps, for each field name, the value of its
    last entry: entries before it are overwritten, and a name with no entry
    is absent from the object. *)
Theorem fromEntries_last_entry_wins
    (before after : list (string * FormDataEntryValue)) (name : string)
    (value : FormDataEntryValue) :
  name ∉ after.*1 →
  fromEntries (before ++ (name, value) :: after) !! name = Some value ∧
  (∀ entries, fromEntries entries !! name = None ↔ name ∉ entries.*1).
Proof.
  assert (∀ (entries : list (string * FormDataEntryValue)) (m : gmap string FormDataEntryValue),
            foldl (fun obj kv => <[kv.1 := kv.2]> obj) m entries !! name = None ↔
                       m !! name = None ∧ name ∉ entries.*1) as Hnone.
  { induction entries as [|[k x] entries IH]; intros m; cbn.
    - split; [intros H; split; [done|apply not_elem_of_nil] | by intros [H _]].
    - rewrite IH, lookup_insert_None, not_elem_of_cons. intuition congruence. }
  assert (∀ (entries : list (string * FormDataEntryValue)) (m : gmap string FormDataEntryValue),
            name ∉ entries.*1 →
            foldl (fun obj kv => <[kv.1 := kv.2]> obj) m entries !! name = m !! name) as Hkeep.
  { induction entries as [|[k x] entries IH]; intros m; cbn; [done|].
    rewrite not_elem_of_cons. intros [Hne Hrest].
    rewrite IH by done. by apply lookup_insert_ne. }
  intros Hafter. split.
  - unfold fromEntries. rewrite foldl_app. cbn. rewrite Hkeep by done.
    apply lookup_insert_eq.
  - intros entries. unfold fromEntries. rewrite Hnone, lookup_empty. intuition.
Qed.

End SchemaFacts.

Lemma fromEntries_last_entry_wins_witness :
  ContextTracking.fromEntries
    ([("Body", ContextTracking.FormString "first")] ++
     ("Body", ContextTracking.FormString "second") ::
     [("From", ContextTracking.FormString "whatsapp:+100")]) !! "Body"%string =
    Some (ContextTracking.FormString "second").
Proof.
  apply (fromEntries_last_entry_wins
           [("Body", ContextTracking.FormString "first")]
           [("From", ContextTracking.FormString "whatsapp:+100")]
           "Body" (ContextTracking.FormString "second")).
  vm_compute. intros H. by repeat (apply elem_of_cons in H as [H|H]; [discriminate H|]);
    apply elem_of_nil in H.
Defined.

(** ** More on the context-tracking handler *)

Section ContextTrackingMore.
Import ContextTracking Cycle.

Variable sv : Services.
Variable now : Z.

(** X3.  Only the [Body] and [From] fields of the form are read: two forms
    that agree on them are handled alike, whatever other fields they carry. *)
Theorem POST_reads_only_Body_and_From (fd fd' : list (string * FormDataEntryValue)) (w : World) :
  payload_Body fd = payload_Body fd' →
  payload_From fd = payload_From fd' →
  POST sv now {| formData := Fulfilled fd |} w = POST sv now {| formData := Fulfilled fd' |} w.
Proof.
  unfold payload_Body, payload_From. intros HB HF.
  unfold POST, try_catch, bind, req_formData. cbn [formData settle].
  by rewrite HB, HF.
Qed.

(** X4.  When the request body cannot be read as form data the handler does
    not answer 400: it answers 500, calls the completion client not at all,
    sends the apology to the fixed number, and leaves the store as it was. *)
Theorem unreadable_form_is_answered_500_with_apology
    (req : NextRequest) (msg : string) (w : World) :
  formData req = Rejected msg →
  ∃ resp w',
    POST sv now req w = (Normal resp, w') ∧
    status resp = 500 ∧
    contextStore w' = contextStore w ∧
    new_calls (calls w) (calls w') =
      [ MessagingCall {| Twilio.from := whatsapp_sender (TWILIO_PHONE_NUMBER sv);
                         Twilio.body := apology_text;
                         Twilio.to := "whatsapp:+1234567890" |} ].
Proof.
  intros H. rewrite (POST_unreadable sv now req msg w H).
  eexists _, _. split; [reflexivity|]. split; [reflexivity|]. split; [reflexivity|].
  unfold new_calls. cbn. by rewrite drop_app_length.
Qed.

(** X5.  The 400 answer carries the issues found by the schema; for an empty
    text [Body] beside a well-formed [From] it carries the one issue with the
    message of the schema. *)
Theorem invalid_payload_details (fd : list (string * FormDataEntryValue)) (w : World) :
  Body_missing_or_empty (payload_Body fd) ∨ From_lacks_prefix (payload_From fd) →
  ∃ issues,
    WhatsAppMessageSchema_parse (payload_Body fd) (payload_From fd) = Thrown (ZodError issues) ∧
    (POST sv now {| formData := Fulfilled fd |} w).1 =
      Normal {| status := 400;
                json := [("error", JsonString "Invalid request");
                         ("details", JsonIssues issues)] |} ∧
    (payload_Body fd = Some (FormString "") → ¬ From_lacks_prefix (payload_From fd) →
     issues = [too_small "Body" "Message cannot be empty"]).
Proof.
  intros H. apply parse_Thrown in H as [issues Hi]. exists issues.
  split; [done|]. split; [by rewrite (POST_invalid sv now fd issues w Hi)|].
  intros HB HF. rewrite HB in Hi.
  unfold WhatsAppMessageSchema_parse, parse_Body, parse_From, From_lacks_prefix in *.
  destruct (payload_From fd) as [[sf|]|]; cbn in *; try tauto.
  destruct (String.prefix "whatsapp:" sf); [|tauto]. by injection Hi as <-.
Qed.

(** X6.  The handler never throws and answers 200, 400 or 500: 400 exactly
    when the form was read and rejected by the schema, 200 exactly when the
    payload was validated and the reply was sent. *)
Theorem POST_status_classification (req : NextRequest) (w : World) :
  ∃ resp w',
    POST sv now req w = (Normal resp, w') ∧
    (status resp = 200 ∨ status resp = 400 ∨ status resp = 500) ∧
    (status resp = 400 ↔
       ∃ fd, formData req = Fulfilled fd ∧
             (Body_missing_or_empty (payload_Body fd) ∨ From_lacks_prefix (payload_From fd))) ∧
    (status resp = 200 ↔ ∃ v, validated req v ∧ primary_send_succeeds sv now w v).
Proof.
  destruct (formData req) as [fd|msg] eqn:Hfd.
  - destruct (parse_total (payload_Body fd) (payload_From fd)) as [[v Hv]|[errors He]].
    + assert (validated req v) as Hval by (exists fd; done).
      assert (∀ v', validated req v' → v' = v) as Huniq.
      { intros v' (fd' & Hfd' & Hv'). congruence. }
      assert (¬ ∃ fd', formData req = Fulfilled fd' ∧
                (Body_missing_or_empty (payload_Body fd') ∨
                 From_lacks_prefix (payload_From fd'))) as Hnot.
      { intros (fd' & Hfd' & Hbad). apply parse_Thrown in Hbad as [issues Hi]. congruence. }
      rewrite Hfd in Hnot.
      rewrite (POST_validated sv now req v w Hval). unfold cycle.
      destruct (twilioClient_messages_create sv _ _) as [[]|msg] eqn:Hsend.
      * eexists _, _. split; [reflexivity|]. cbn. split; [auto|]. split.
        -- split; [discriminate|]. intros H. exfalso. exact (Hnot H).
        -- split; [|done]. intros _. exists v. split; [done|]. exact Hsend.
      * eexists _, _. split; [reflexivity|]. cbn. split; [auto|]. split.
        -- split; [discriminate|]. intros H. exfalso. exact (Hnot H).
        -- split; [discriminate|]. intros (v' & Hv' & Hok).
           rewrite (Huniq v' Hv') in Hok. unfold primary_send_succeeds in Hok.
           congruence.
    + destruct req as [r]; cbn in Hfd; subst r. rewrite (POST_invalid sv now fd errors w He).
      eexists _, _. split; [reflexivity|]. cbn. split; [auto|]. split.
      * split; [|done]. intros _. exists fd. split; [done|]. apply parse_Thrown. eauto.
      * split; [discriminate|]. intros (v & (fd' & Hfd' & Hv) & _).
        cbn in Hfd'. congruence.
  - rewrite (POST_unreadable sv now req msg w Hfd).
    eexists _, _. split; [reflexivity|]. cbn. split; [auto|]. split.
    + split; [discriminate|]. intros (fd & Hfd' & _). congruence.
    + split; [discriminate|]. intros (v & (fd' & Hfd' & Hv) & _). congruence.
Qed.

(** A request adds calls at the end of the trace, in one of four shapes:
    none (400); the apology alone (unreadable form); a completion call and the
    send (200); or these two followed by the apology (500). *)
Lemma POST_call_shapes (req : NextRequest) (w : World) :
  ∃ new,
    calls (POST sv now req w).2 = calls w ++ new ∧
    (new = [] ∨
     new = [MessagingCall (apology_send sv)] ∨
     (∃ v, validated req v ∧
           (new = [CompletionCall (completion_params now w v);
                   MessagingCall (primary_send sv now w v)] ∨
            new = [CompletionCall (completion_params now w v);
                   MessagingCall (primary_send sv now w v);
                   MessagingCall (apology_send sv)]))).
Proof.
  destruct (formData req) as [fd|msg] eqn:Hfd.
  - destruct (parse_total (payload_Body fd) (payload_From fd)) as [[v Hv]|[errors He]].
    + assert (validated req v) as Hval by (exists fd; done).
      rewrite (POST_validated sv now req v w Hval). unfold cycle.
      destruct (twilioClient_messages_create sv _ _); eexists; cbn;
        (split; [by rewrite <- !app_assoc|]); right; right; exists v; auto.
    + destruct req as [r]; cbn in Hfd; subst r. rewrite (POST_invalid sv now fd errors w He).
      exists []. cbn. rewrite app_nil_r. auto.
  - rewrite (POST_unreadable sv now req msg w Hfd). eexists. split; [reflexivity|]. auto.
Qed.

(** X7.  A request only adds calls at the end of the trace: at most one
    completion call and at most two messaging calls, the completion call before
    any messaging call. *)
Theorem POST_call_budget (req : NextRequest) (w : World) :
  ∃ new,
    calls (POST sv now req w).2 = calls w ++ new ∧
    (length (completion_calls new) ≤ 1)%nat ∧
    (length (messaging_calls new) ≤ 2)%nat ∧
    ∀ i j p q, new !! i = Some (CompletionCall p) → new !! j = Some (MessagingCall q) →
               (i < j)%nat.
Proof.
  destruct (POST_call_shapes req w) as (new & Hcalls & Hshape). exists new.
  split; [done|].
  destruct Hshape as [-> | [-> | (v & _ & [-> | ->])]]; cbn;
    (split; [lia|]); (split; [lia|]);
    intros [|[|[|i]]] [|[|[|j]]] p q; cbn; try discriminate; intros; lia.
Qed.

Lemma or_default_nonempty (o : option string) (d : string) :
  d ≠ ""%string → or_default o d ≠ ""%string.
Proof.
  intros Hd. unfold or_default. destruct o as [s|]; [|done].
  destruct (String.eqb s "") eqn:He; [done|]. by apply String.eqb_neq.
Qed.

Lemma reply_nonempty (w : World) (v : WhatsAppMessage) : reply sv now w v ≠ ""%string.
Proof.
  unfold reply. destruct (openai_chat_completions_create sv _ _); [|done].
  by apply or_default_nonempty.
Qed.

(** X8.  [generateAIResponse] never throws and makes exactly one completion
    call, on the last six messages of the context, without touching the
    store.  Its reply is never empty: it is the content of the first choice
    when there is a non-empty one, one fixed text when the completion has no
    such content, and another fixed text when the call throws. *)
Theorem generateAIResponse_always_replies (context : ConversationContext) (w : World) :
  ∃ r params,
    generateAIResponse sv context w =
      (Normal r, {| contextStore := contextStore w;
                    calls := calls w ++ [CompletionCall params] |}) ∧
    params = {| OpenAI.model := "gpt-3.5-turbo";
                OpenAI.messages := map to_param (slice_last 6 (messages context));
                OpenAI.max_tokens := 150;
                OpenAI.temperature := Some (7 # 10)%Q |} ∧
    r ≠ ""%string ∧
    (∀ msg, openai_chat_completions_create sv (calls w) params = Rejected msg →
            r = "Sorry, I am unable to generate a response right now."%string) ∧
    (∀ c, openai_chat_completions_create sv (calls w) params = Fulfilled c →
          OpenAI.first_content c = None ∨ OpenAI.first_content c = Some ""%string →
          r = "I could not generate a response."%string) ∧
    (∀ c s, openai_chat_completions_create sv (calls w) params = Fulfilled c →
            OpenAI.first_content c = Some s → s ≠ ""%string → r = s).
Proof.
  unfold generateAIResponse, try_catch, bind, openai_create, ret.
  destruct (openai_chat_completions_create sv (calls w) _) as [c|msg] eqn:Hai; cbn [settle].
  - eexists _, _. split; [reflexivity|]. split; [reflexivity|].
    split; [by apply or_default_nonempty|]. split; [|split].
    + intros msg H. congruence.
    + intros c' H [Hc | Hc]; rewrite Hai in H; injection H as <-; by rewrite Hc.
    + intros c' s H Hc Hs. rewrite Hai in H. injection H as <-. rewrite Hc. cbn.
      apply String.eqb_neq in Hs. by rewrite Hs.
  - eexists _, _. split; [reflexivity|]. split; [reflexivity|].
    split; [done|]. split; [done|]. split.
    + intros c H. congruence.
    + intros c s H. congruence.
Qed.

(** X9.  No request removes a key from the store: a validated request adds
    the sender's key (if it was not there) and nothing else, and a request
    that is not validated leaves the store untouched. *)
Theorem store_keys_only_grow (req : NextRequest) (w : World) :
  dom (contextStore w) ⊆ dom (contextStore (POST sv now req w).2) ∧
  (∀ v, validated req v →
        dom (contextStore (POST sv now req w).2) = {[From v]} ∪ dom (contextStore w)) ∧
  ((∀ v, ¬ validated req v) → contextStore (POST sv now req w).2 = contextStore w).
Proof.
  destruct (POST_store sv now req w) as [(v & Hv & ->)|[Hnone ->]].
  - rewrite dom_insert_L. split; [set_solver|]. split.
    + intros v' (fd' & Hfd' & Hv'). destruct Hv as (fd & Hfd & Hparse).
      assert (v' = v) as -> by congruence. done.
    + intros H. by destruct (H v).
  - split; [done|]. split; [|done]. intros v Hv. by destruct (Hnone v).
Qed.

(** X10.  After a validated request the context stored under the sender's
    key ends with the user message of the request followed by the assistant
    message, and the assistant message holds, whether or not the send
    succeeds, the very text that the send to the sender carried; that text is
    never empty. *)
Theorem stored_reply_is_delivered_reply (req : NextRequest) (v : WhatsAppMessage) (w : World) :
  validated req v →
  ∃ context earlier r,
    contextStore (POST sv now req w).2 !! From v = Some context ∧
    messages context = earlier ++ exchange v r ∧
    r ≠ ""%string ∧
    MessagingCall {| Twilio.from := whatsapp_sender (TWILIO_PHONE_NUMBER sv);
                     Twilio.body := r;
                     Twilio.to := From v |}
      ∈ new_calls (calls w) (calls (POST sv now req w).2).
Proof.
  intros Hv. rewrite (POST_validated sv now req v w Hv).
  exists (updated_context sv now w v), (messages (prior_context now w v)), (reply sv now w v).
  assert (∀ rest, MessagingCall (primary_send sv now w v) ∈
            new_calls (calls w)
              ((calls w ++ [CompletionCall (completion_params now w v)]) ++
               MessagingCall (primary_send sv now w v) :: rest)) as Hin.
  { intros rest. unfold new_calls. rewrite <- app_assoc, drop_app_length.
    cbn. apply elem_of_cons. right. apply elem_of_cons. by left. }
  unfold cycle. destruct (twilioClient_messages_create sv _ _); cbn.
  - split; [apply lookup_insert_eq|]. split; [by rewrite <- app_assoc|].
    split; [apply reply_nonempty|]. apply (Hin []).
  - split; [apply lookup_insert_eq|]. split; [by rewrite <- app_assoc|].
    split; [apply reply_nonempty|]. rewrite <- (app_assoc _ [_] [_]). apply Hin.
Qed.

(** X11.  The system message is sent to the completion client only while the
    conversation is short.  For a sender whose stored context satisfies the
    store invariant: with at most five stored messages the whole history,
    starting with the system message, is sent; with six or more, exactly six
    messages are sent and none of them is a system message. *)
Theorem system_message_leaves_the_window
    (req : NextRequest) (v : WhatsAppMessage) (w : World) (earlier : ConversationContext) :
  validated req v →
  contextStore w !! From v = Some earlier →
  system_first_and_only (messages earlier) →
  ∃ params,
    completion_calls (new_calls (calls w) (calls (POST sv now req w).2)) = [params] ∧
    ((length (messages earlier) ≤ 5)%nat →
       OpenAI.messages params =
         map to_param (messages earlier ++ [ {| role := user; content := Body v |} ]) ∧
       ∃ first, head (OpenAI.messages params) = Some first ∧ OpenAI.role first = system) ∧
    ((6 ≤ length (messages earlier))%nat →
       length (OpenAI.messages params) = 6%nat ∧
       Forall (fun p => OpenAI.role p ≠ system) (OpenAI.messages params)).
Proof.
  intros Hv Hlook (first & rest & Hms & Hfirst & Hrest).
  exists (completion_params now w v). split.
  - rewrite (POST_validated sv now req v w Hv). unfold cycle, new_calls.
    destruct (twilioClient_messages_create sv _ _); cbn;
      rewrite <- !app_assoc, drop_app_length; reflexivity.
  - unfold completion_params, prior_context. rewrite Hlook. cbn [default from_option Datatypes.id
      OpenAI.messages]. fold (user_message v). split.
    + intros Hlen. rewrite slice_last_short by (rewrite length_app; cbn; lia).
      split; [done|]. rewrite Hms. cbn. eauto.
    + intros Hlen. change (map to_param ?l) with (to_param <$> l).
      rewrite length_fmap, slice_last_length, length_app. cbn [length]. split; [lia|].
      apply Forall_fmap. unfold slice_last. rewrite length_app, Hms. cbn [length].
      rewrite Hms in Hlen. cbn [length] in Hlen.
      replace (S (length rest) + 1 - 6)%nat with (S (length rest - 5)) by lia.
      cbn [app drop]. apply Forall_drop, Forall_app. split.
      * eapply Forall_impl; [exact Hrest|]. done.
      * repeat constructor. cbn. discriminate.
Qed.

(** X12.  Every message the handler sends goes out from the configured
    WhatsApp sender to an address carrying the [whatsapp:] prefix: the sender
    of a validated request, or the fixed number. *)
Theorem messaging_calls_are_channel_prefixed
    (req : NextRequest) (w : World) (p : Twilio.MessageListInstanceCreateOptions) :
  p ∈ messaging_calls (new_calls (calls w) (calls (POST sv now req w).2)) →
  Twilio.from p = whatsapp_sender (TWILIO_PHONE_NUMBER sv) ∧
  String.prefix "whatsapp:" (Twilio.from p) = true ∧
  String.prefix "whatsapp:" (Twilio.to p) = true ∧
  (Twilio.to p = "whatsapp:+1234567890"%string ∨ ∃ v, validated req v ∧ Twilio.to p = From v).
Proof.
  assert (String.prefix "whatsapp:" (whatsapp_sender (TWILIO_PHONE_NUMBER sv)) = true) as Hfrom.
  { unfold whatsapp_sender. cbn. by destruct (default _ _). }
  assert (∀ v, validated req v → String.prefix "whatsapp:" (From v) = true) as Hto.
  { intros v (fd & _ & Hparse). by apply parse_Normal in Hparse as (_ & _ & _ & Hp). }
  destruct (POST_call_shapes req w) as (new & -> & Hshape).
  unfold new_calls. rewrite drop_app_length.
  destruct Hshape as [-> | [-> | (v & Hv & [-> | ->])]]; cbn; intros Hin;
    repeat (apply elem_of_cons in Hin as [-> | Hin]); try (by apply elem_of_nil in Hin);
    cbn; (split; [done|]); (split; [exact Hfrom|]); (split; [by auto|]); eauto.
Qed.

End ContextTrackingMore.

(** ** Several requests of one sender *)

Section Conversation.
Import ContextTracking Cycle.

Variable sv : Services.

Lemma exchanges_length (vs : list WhatsAppMessage) (replies : list string) :
  length vs = length replies →
  length (concat (zip_with exchange vs replies)) = (2 * length vs)%nat.
Proof.
  revert replies. induction vs as [|v vs IH]; intros [|r replies]; cbn; try done.
  intros [= H]. rewrite (IH replies H). lia.
Qed.

(** Requests of a sender whose context is already stored: each validated
    request appends its exchange, and [id] and [createdAt] stay. *)
Lemma run_on_stored_context (K : string) (reqs : list (Z * NextRequest))
    (vs : list WhatsAppMessage) :
  Forall2 (fun r v => validated r.2 v ∧ From v = K) reqs vs →
  ∀ (w : World) (c : ConversationContext),
    contextStore w !! K = Some c →
    ∃ replies context,
      length replies = length vs ∧
      contextStore (run sv reqs w) !! K = Some context ∧
      messages context = messages c ++ concat (zip_with exchange vs replies) ∧
      id context = id c ∧
      createdAt context = createdAt c.
Proof.
  induction 1 as [|[now req] v reqs vs [Hv HK] _ IH]; intros w c Hc.
  - exists [], c. cbn. rewrite app_nil_r. auto.
  - cbn [run foldl fst snd] in *. cbn in Hv.
    pose proof (POST_validated sv now req v w Hv) as HP.
    assert (contextStore (POST sv now req w).2 !! K = Some (updated_context sv now w v)) as Hnext.
    { rewrite HP. unfold cycle. rewrite <- HK.
      destruct (twilioClient_messages_create sv _ _); cbn; apply lookup_insert_eq. }
    destruct (IH _ _ Hnext) as (replies & context & Hlen & Hlook & Hms & Hid & Hcreated).
    exists (reply sv now w v :: replies), context.
    split; [cbn; by rewrite Hlen|]. split; [exact Hlook|].
    unfold updated_context, prior_context in *. rewrite HK, Hc in *. cbn in *.
    split; [by rewrite Hms, <- !app_assoc|]. done.
Qed.

(** X13.  A conversation: when a sender with no stored context makes one
    validated request after another, the stored context is the system message
    followed by one user/assistant pair per request, in order, each user
    message holding the [Body] of its request; it has [1 + 2n] messages after
    [n] requests, whether or not the sends succeeded, and its [createdAt] is
    the time of the first request. *)
Theorem conversation_grows_by_exchanges
    (K : string) (now0 : Z) (req0 : NextRequest) (v0 : WhatsAppMessage)
    (reqs : list (Z * NextRequest)) (vs : list WhatsAppMessage) (w : World) :
  contextStore w !! K = None →
  validated req0 v0 → From v0 = K →
  Forall2 (fun r v => validated r.2 v ∧ From v = K) reqs vs →
  ∃ replies context,
    length replies = S (length reqs) ∧
    contextStore (run sv ((now0, req0) :: reqs) w) !! K = Some context ∧
    messages context = system_message :: concat (zip_with exchange (v0 :: vs) replies) ∧
    length (messages context) = (1 + 2 * S (length reqs))%nat ∧
    id context = K ∧
    createdAt context = now0.
Proof.
  intros Hfresh Hv0 HK Hrest.
  pose proof (Forall2_length _ _ _ Hrest) as Hlen.
  cbn [run foldl fst snd].
  pose proof (POST_validated sv now0 req0 v0 w Hv0) as HP.
  assert (contextStore (POST sv now0 req0 w).2 !! K = Some (updated_context sv now0 w v0))
    as Hnext.
  { rewrite HP. unfold cycle. rewrite <- HK.
    destruct (twilioClient_messages_create sv _ _); cbn; apply lookup_insert_eq. }
  destruct (run_on_stored_context K reqs vs Hrest _ _ Hnext)
    as (replies & context & Hlenr & Hlook & Hms & Hid & Hcreated).
  exists (reply sv now0 w v0 :: replies), context.
  unfold updated_context, prior_context in *. rewrite HK, Hfresh in *. cbn in Hms, Hid, Hcreated.
  split; [cbn; lia|]. split; [exact Hlook|].
  assert (messages context =
            system_message :: concat (zip_with exchange (v0 :: vs) (reply sv now0 w v0 :: replies)))
    as Hshape by (rewrite Hms; reflexivity).
  split; [exact Hshape|]. split; [|done].
  rewrite Hshape. cbn [length]. rewrite exchanges_length by (cbn; lia). cbn [length]. lia.
Qed.

End Conversation.

(** ** More on the JSON handler *)

Section JsonRouteMore.
Import JsonRoute.

Variable sv : Services.

(** The answers of the JSON handler and the calls that go with them. *)
Lemma json_POST_cases (request : NextRequest) (cs : list ProviderCall) :
  ∃ resp new,
    POST sv request cs = (Normal resp, cs ++ new) ∧
    ((status resp = 400 ∧ new = []) ∨
     (status resp = 500 ∧ new = []) ∨
     (∃ body, status resp = 500 ∧ new = [CompletionCall (json_completion_params body)]) ∨
     (∃ body reply_text,
        (status resp = 200 ∨ status resp = 500) ∧
        new = [CompletionCall (json_completion_params body);
               MessagingCall {| Twilio.from := whatsapp_sender (TWILIO_PHONE_NUMBER sv);
                                Twilio.to := "whatsapp:+923020012190";
                                Twilio.body := reply_text |}])).
Proof.
  unfold POST, try_catch, bind, request_json, destructure, ret, throw.
  destruct (json_body request) as [body|msg]; cbn [settle].
  - destruct body as [| |b|q|s|items|props];
      try (eexists _, []; rewrite app_nil_r; split; [reflexivity|]; cbn; by auto).
    cbn [fst snd].
    destruct (negb (truthy (get_prop "Body" props)) || negb (truthy (get_prop "From" props))).
    + eexists _, []. rewrite app_nil_r. split; [reflexivity|]. cbn. auto.
    + unfold openai_create.
      destruct (openai_chat_completions_create sv cs _) as [c|msg]; cbn [settle].
      * unfold twilio_create.
        destruct (twilioClient_messages_create sv _ _) as [[]|msg]; cbn [settle];
          eexists _, [_; _]; (split; [by rewrite <- app_assoc|]);
          right; right; right; eexists _, _; (split; [|reflexivity]); cbn; auto.
      * eexists _, [_]. split; [reflexivity|]. right. right. left. eexists. cbn. eauto.
  - eexists _, []. rewrite app_nil_r. split; [reflexivity|]. cbn. auto.
Qed.

(** X14.  The JSON handler never throws; it answers 200, 400 or 500, makes at
    most one completion call and at most one messaging call, a 200 answer
    means that both were made, and a messaging call is addressed to the number
    written in the source whatever the request was. *)
Theorem json_POST_budget_and_destination (request : NextRequest) (cs : list ProviderCall) :
  ∃ resp new,
    POST sv request cs = (Normal resp, cs ++ new) ∧
    (status resp = 200 ∨ status resp = 400 ∨ status resp = 500) ∧
    (length (completion_calls new) ≤ 1)%nat ∧
    (length (messaging_calls new) ≤ 1)%nat ∧
    (status resp = 200 → length (completion_calls new) = 1%nat ∧
                          length (messaging_calls new) = 1%nat) ∧
    (status resp = 400 → new = []) ∧
    ∀ m, m ∈ messaging_calls new → Twilio.to m = "whatsapp:+923020012190"%string.
Proof.
  destruct (json_POST_cases request cs) as (resp & new & HP & Hcases).
  exists resp, new. split; [exact HP|].
  assert (∀ m : Twilio.MessageListInstanceCreateOptions,
            m ∈ [] → Twilio.to m = "whatsapp:+923020012190"%string) as Hnil.
  { intros m Hm. by apply elem_of_nil in Hm. }
  destruct Hcases as [[Hs ->] | [[Hs ->] | [(body & Hs & ->) | (body & r & Hs & ->)]]].
  - rewrite Hs. cbn. repeat split; auto; try lia; try discriminate.
  - rewrite Hs. cbn. repeat split; auto; try lia; try discriminate.
  - rewrite Hs. cbn. repeat split; auto; try lia; try discriminate.
  - assert (∀ m, m ∈ messaging_calls
                   [CompletionCall (json_completion_params body);
                    MessagingCall {| Twilio.from := whatsapp_sender (TWILIO_PHONE_NUMBER sv);
                                     Twilio.to := "whatsapp:+923020012190";
                                     Twilio.body := r |}] →
                 Twilio.to m = "whatsapp:+923020012190"%string) as Hone.
    { intros m Hm. cbn in Hm. apply list_elem_of_singleton in Hm. by subst m. }
    destruct Hs as [Hs | Hs]; rewrite Hs; cbn; repeat split; auto; try lia; try discriminate.
Qed.

(** X15.  A body that is not JSON, and the JSON value [null], are answered 500
    without any call; any other JSON value that is not an object (a number, a
    string, a boolean, an array) is answered 400 without any call. *)
Theorem json_POST_non_object_bodies (cs : list ProviderCall) :
  (∀ msg,
     POST sv {| json_body := Rejected msg |} cs =
       (Normal {| status := 500;
                  json := [("error", JsonString "Failed to process request");
                           ("details", JsonString msg)] |}, cs)) ∧
  (∃ resp, POST sv {| json_body := Fulfilled JsNull |} cs = (Normal resp, cs) ∧
           status resp = 500) ∧
  (∀ body,
     match body with
     | JsBoolean _ | JsNumber _ | JsString _ | JsArray _ => True
     | _ => False
     end →
     POST sv {| json_body := Fulfilled body |} cs =
       (Normal {| status := 400; json := [("error", JsonString "Invalid request payload.")] |},
        cs)).
Proof.
  split; [done|]. split; [by eexists|].
  intros [| |b|q|s|items|props] H; by try destruct H.
Qed.

(** X16.  On an object payload the answer is 400 exactly when [Body] or [From]
    is falsy (missing, [null], [false], zero or the empty string).  No type
    is checked beyond that: a truthy [Body] of any type is forwarded as it is
    as the content of the one user message of the completion request. *)
Theorem json_POST_validation_is_truthiness (props : list (string * JsValue))
    (cs : list ProviderCall) :
  ∃ resp cs',
    POST sv {| json_body := Fulfilled (JsObject props) |} cs = (Normal resp, cs') ∧
    (status resp = 400 ↔
       truthy (get_prop "Body" props) = false ∨ truthy (get_prop "From" props) = false) ∧
    (status resp ≠ 400 →
       head (new_calls cs cs') =
         Some (CompletionCall
                 {| OpenAI.model := "gpt-4";
                    OpenAI.messages :=
                      [ {| OpenAI.role := user; OpenAI.content := get_prop "Body" props |} ];
                    OpenAI.max_tokens := 200;
                    OpenAI.temperature := None |})).
Proof.
  destruct (truthy (get_prop "Body" props)) eqn:HB;
    [destruct (truthy (get_prop "From" props)) eqn:HF|].
  - unfold POST, try_catch, bind, request_json, destructure, ret. cbn. rewrite HB, HF. cbn.
    unfold openai_create, new_calls.
    destruct (openai_chat_completions_create sv cs _) as [c|msg]; cbn [settle].
    + unfold twilio_create.
      destruct (twilioClient_messages_create sv _ _) as [[]|msg]; cbn [settle];
        eexists _, _; (split; [reflexivity|]); cbn;
        (split; [split; [discriminate|by intros [?|?]]|]); intros _;
        by rewrite <- app_assoc, drop_app_length.
    + eexists _, _. split; [reflexivity|]. cbn.
      split; [split; [discriminate|by intros [?|?]]|]. intros _.
      by rewrite drop_app_length.
  - rewrite json_POST_invalid by (rewrite HF; auto).
    eexists _, _. split; [reflexivity|]. cbn. split; [split; auto|].
    intros H. by destruct H.
  - rewrite json_POST_invalid by auto.
    eexists _, _. split; [reflexivity|]. cbn. split; [split; auto|].
    intros H. by destruct H.
Qed.

(** X17.  The value of [From] decides nothing beyond the 400 check: two object
    payloads with the same [Body] and truthy [From] values are handled
    alike. *)
Theorem json_POST_does_not_use_From (props props' : list (string * JsValue))
    (cs : list ProviderCall) :
  get_prop "Body" props = get_prop "Body" props' →
  truthy (get_prop "From" props) = true →
  truthy (get_prop "From" props') = true →
  POST sv {| json_body := Fulfilled (JsObject props) |} cs =
  POST sv {| json_body := Fulfilled (JsObject props') |} cs.
Proof.
  intros HB HF HF'.
  unfold POST, try_catch, bind, request_json, destructure, ret. cbn.
  by rewrite HB, HF, HF'.
Qed.

(** X18.  When the completion comes back without content (no choice, no
    message, a [null] or empty content) the JSON handler sends the fixed text
    [I'm here to help!]; otherwise it sends the content of the first choice. *)
Theorem json_POST_reply_text (props : list (string * JsValue)) (cs : list ProviderCall)
    (completion : OpenAI.ChatCompletion) :
  truthy (get_prop "Body" props) = true →
  truthy (get_prop "From" props) = true →
  openai_chat_completions_create sv cs (json_completion_params (get_prop "Body" props)) =
    Fulfilled completion →
  ∃ reply_text,
    messaging_calls (POST sv {| json_body := Fulfilled (JsObject props) |} cs).2 =
      messaging_calls cs ++
      [ {| Twilio.from := whatsapp_sender (TWILIO_PHONE_NUMBER sv);
           Twilio.to := "whatsapp:+923020012190";
           Twilio.body := reply_text |} ] ∧
    reply_text ≠ ""%string ∧
    (OpenAI.first_content completion = None ∨ OpenAI.first_content completion = Some ""%string →
     reply_text = "I'm here to help!"%string) ∧
    (∀ s, OpenAI.first_content completion = Some s → s ≠ ""%string → reply_text = s).
Proof.
  intros HB HF Hai.
  exists (or_default (OpenAI.first_content completion) no_content_reply).
  split; [|split; [by apply or_default_nonempty|split]].
  - unfold POST, try_catch, bind, request_json, destructure, ret. cbn. rewrite HB, HF. cbn.
    unfold openai_create. fold (json_completion_params (get_prop "Body" props)).
    rewrite Hai. cbn [settle]. unfold twilio_create.
    destruct (twilioClient_messages_create sv _ _) as [[]|msg]; cbn [settle snd];
      unfold messaging_calls; rewrite !omap_app; cbn; by rewrite ?app_nil_r.
  - by intros [-> | ->].
  - intros s -> Hs. cbn. apply String.eqb_neq in Hs. by rewrite Hs.
Qed.

End JsonRouteMore.

(** ** Further concrete runs *)

Lemma POST_reads_only_Body_and_From_witness :
  ContextTracking.POST services_ok 0
    {| ContextTracking.formData :=
         Fulfilled [("MessageSid", ContextTracking.FormString "SM1");
                    ("Body", ContextTracking.FormString "Hello");
                    ("From", ContextTracking.FormString "whatsapp:+100");
                    ("NumMedia", ContextTracking.FormString "0")] |} empty_world =
  ContextTracking.POST services_ok 0 hello_form empty_world.
Proof.
  apply (POST_reads_only_Body_and_From services_ok 0); reflexivity.
Defined.

Lemma unreadable_form_witness :
  ∃ resp w',
    ContextTracking.POST services_ok 0
      {| ContextTracking.formData := Rejected "Failed to parse body as FormData." |}
      empty_world = (Normal resp, w') ∧
    status resp = 500 ∧
    length (messaging_calls (ContextTracking.calls w')) = 1%nat.
Proof.
  destruct (unreadable_form_is_answered_500_with_apology services_ok 0
              {| ContextTracking.formData := Rejected "Failed to parse body as FormData." |}
              "Failed to parse body as FormData." empty_world)
    as (resp & w' & HP & Hstatus & _ & Hcalls).
  - reflexivity.
  - exists resp, w'. split; [exact HP|]. split; [exact Hstatus|].
    exact (f_equal (fun cs => length (messaging_calls cs)) Hcalls).
Defined.

Lemma invalid_payload_details_witness :
  ∃ issues,
    (ContextTracking.POST services_ok 0
       {| ContextTracking.formData :=
            Fulfilled [("Body", ContextTracking.FormString "");
                       ("From", ContextTracking.FormString "whatsapp:+100")] |}
       empty_world).1 =
      Normal {| status := 400;
                json := [("error", JsonString "Invalid request");
                         ("details", JsonIssues issues)] |} ∧
    issues = [too_small "Body" "Message cannot be empty"].
Proof.
  destruct (invalid_payload_details services_ok 0
              [("Body", ContextTracking.FormString "");
               ("From", ContextTracking.FormString "whatsapp:+100")] empty_world)
    as (issues & _ & HP & Hissues).
  - left. reflexivity.
  - exists issues. split; [exact HP|]. apply Hissues; [reflexivity|].
    vm_compute. discriminate.
Defined.

Lemma stored_reply_witness :
  ∃ context earlier r,
    ContextTracking.contextStore
      (ContextTracking.POST services_send_down 0 hello_form empty_world).2
      !! "whatsapp:+100"%string = Some context ∧
    ContextTracking.messages context = earlier ++ exchange hello_message r ∧
    r ≠ ""%string.
Proof.
  destruct (stored_reply_is_delivered_reply services_send_down 0
              hello_form hello_message empty_world hello_form_validated)
    as (context & earlier & r & Hlook & Hms & Hr & _).
  exists context, earlier, r. split; [exact Hlook|]. split; [exact Hms|exact Hr].
Defined.

(** The fourth request of a sender: seven messages are stored, six are sent
    and the system message is not among them. *)
Lemma system_message_leaves_the_window_witness :
  let w3 := run services_ok [(0, hello_form); (1, hello_form); (2, hello_form)] empty_world in
  ∃ params,
    completion_calls
      (new_calls (ContextTracking.calls w3)
                 (ContextTracking.calls (ContextTracking.POST services_ok 3 hello_form w3).2)) =
      [params] ∧
    length (OpenAI.messages params) = 6%nat ∧
    Forall (fun p => OpenAI.role p ≠ system) (OpenAI.messages params).
Proof.
  intros w3.
  destruct (system_message_leaves_the_window services_ok 3 hello_form hello_message w3
              {| ContextTracking.id := "whatsapp:+100";
                 ContextTracking.messages :=
                   ContextTracking.system_message ::
                   exchange hello_message "Hi there!" ++
                   exchange hello_message "Hi there!" ++
                   exchange hello_message "Hi there!";
                 ContextTracking.createdAt := 0 |})
    as (params & Hcalls & _ & Hlong).
  - exact hello_form_validated.
  - reflexivity.
  - eexists _, _. split; [reflexivity|]. split; [reflexivity|].
    repeat constructor; discriminate.
  - exists params. split; [exact Hcalls|]. apply Hlong. cbn. lia.
Defined.

Lemma messaging_calls_are_channel_prefixed_witness :
  let p := {| Twilio.from := "whatsapp:+14155238886";
              Twilio.body := "Hi there!";
              Twilio.to := "whatsapp:+100" |} in
  Twilio.from p = whatsapp_sender (TWILIO_PHONE_NUMBER services_ok) ∧
  String.prefix "whatsapp:" (Twilio.from p) = true ∧
  String.prefix "whatsapp:" (Twilio.to p) = true ∧
  (Twilio.to p = "whatsapp:+1234567890"%string ∨
   ∃ v, Cycle.validated hello_form v ∧ Twilio.to p = ContextTracking.From v).
Proof.
  intros p.
  apply (messaging_calls_are_channel_prefixed services_ok 0 hello_form empty_world p).
  vm_compute. apply list_elem_of_here.
Defined.

Lemma conversation_witness :
  ∃ (replies : list string) context,
    length replies = 3%nat ∧
    ContextTracking.contextStore
      (run services_first_send_down
           [(10, hello_form); (20, hello_form); (30, hello_form)] empty_world)
      !! "whatsapp:+100"%string = Some context ∧
    length (ContextTracking.messages context) = 7%nat ∧
    ContextTracking.createdAt context = 10.
Proof.
  destruct (conversation_grows_by_exchanges services_first_send_down "whatsapp:+100"
              10 hello_form hello_message [(20, hello_form); (30, hello_form)]
              [hello_message; hello_message] empty_world)
    as (replies & context & Hlen & Hlook & _ & Hms & _ & Hcreated).
  - reflexivity.
  - exact hello_form_validated.
  - reflexivity.
  - repeat constructor; exact hello_form_validated.
  - exists replies, context. split; [exact Hlen|]. split; [exact Hlook|].
    split; [exact Hms|exact Hcreated].
Defined.

Lemma json_POST_does_not_use_From_witness :
  JsonRoute.POST services_ok hello_json [] =
  JsonRoute.POST services_ok
    {| JsonRoute.json_body :=
         Fulfilled (JsObject [("Body", JsString "Hello"); ("From", JsNumber (5 # 1))]) |} [].
Proof.
  apply (json_POST_does_not_use_From services_ok
           [("Body", JsString "Hello"); ("From", JsString "whatsapp:+100")]
           [("Body", JsString "Hello"); ("From", JsNumber (5 # 1))] []); reflexivity.
Defined.

Lemma json_POST_reply_text_witness :
  ∃ reply_text,
    messaging_calls
      (JsonRoute.POST
         (stub_services (Fulfilled {| OpenAI.choices := [] |}) (Fulfilled tt) (Fulfilled tt))
         hello_json []).2 =
      [ {| Twilio.from := "whatsapp:+14155238886";
           Twilio.to := "whatsapp:+923020012190";
           Twilio.body := reply_text |} ] ∧
    reply_text = "I'm here to help!"%string.
Proof.
  destruct (json_POST_reply_text
              (stub_services (Fulfilled {| OpenAI.choices := [] |}) (Fulfilled tt) (Fulfilled tt))
              [("Body", JsString "Hello"); ("From", JsString "whatsapp:+100")] []
              {| OpenAI.choices := [] |})
    as (reply_text & Hcalls & _ & Hnone & _).
  - reflexivity.
  - reflexivity.
  - reflexivity.
  - exists reply_text. split; [exact Hcalls|]. apply Hnone. left. reflexivity.
Defined.
